(** * Soil trafficability and compaction advisor

    A shallow embedding of [streamlit_app.py]: the text parser, the five
    indicator evaluators, the aggregator, the recommender, the body of the
    [if submitted:] block and the quick question/answer lookup, followed by
    the properties of these functions.

    Conventions.
    - A Python [float] is a primitive binary64 float ([PrimFloat.float]);
      [None] is [None] of an [option].
    - A Python [str] is a [string] holding the UTF-8 bytes of the text.
      UTF-8 is self-synchronising, so the substring test [in] on code
      points and on bytes agree for the literals of this program.  Where
      a built-in looks at characters ([float], [str.lower]) the bytes are
      read as the code points they encode.
    - Code that can raise runs in the error monad [Exc]; [try]/[except]
      is [try_except]. *)

From Stdlib Require Import ZArith NArith List String Ascii Bool Lia.
From Stdlib Require Import Floats DecimalString.
From stdpp Require Import base option gmap strings.

Set Warnings "-inexact-float".

(** ** Python strings *)

Module PyStr.

(** [sub in s] for two strings. *)
Fixpoint contains (sub s : string) : bool :=
  String.prefix sub s ||
  match s with
  | EmptyString => false
  | String _ rest => contains sub rest
  end.

(** [sep.join(parts)]. *)
Fixpoint join (sep : string) (parts : list string) : string :=
  match parts with
  | [] => ""
  | [p] => p
  | p :: rest => p +:+ sep +:+ join sep rest
  end.

Definition is_upper (c : ascii) : bool :=
  (65 <=? nat_of_ascii c) && (nat_of_ascii c <=? 90).

Definition lower_char (c : ascii) : ascii :=
  if is_upper c then ascii_of_nat (nat_of_ascii c + 32) else c.

(** [s.lower()], as far as ASCII characters go.  The letters [A]-[Z]
    become [a]-[z].  Two characters outside ASCII have a lower case with
    an ASCII letter and are replaced as Python does: U+0130 (bytes 196
    176) by [i] and U+0307 (bytes 204 135), and U+212A KELVIN SIGN (bytes
    226 132 170) by [k].  Every other character outside ASCII is kept as
    it is; Python may put other characters outside ASCII in its place.  So
    the ASCII characters of the result, and which of them are next to each
    other, are as in Python: an ASCII keyword occurs in the one text when
    it occurs in the other.

    The text is built from the right: [lower_glue c t] puts the lower case
    of the byte [c] before the already lower-cased rest [t], and replaces
    the bytes of the two characters above once they are complete. *)
Definition lower_glue (c : ascii) (t : string) : string :=
  match t with
  | String c1 t1 =>
      if Ascii.eqb c "196" && Ascii.eqb c1 "176" then
        String "i" (String "204" (String "135" t1))
      else
        match t1 with
        | String c2 t2 =>
            if Ascii.eqb c "226" && Ascii.eqb c1 "132" && Ascii.eqb c2 "170"
            then String "k" t2
            else String (lower_char c) t
        | EmptyString => String (lower_char c) t
        end
  | EmptyString => String (lower_char c) t
  end.

Fixpoint lower (s : string) : string :=
  match s with
  | EmptyString => EmptyString
  | String c rest => lower_glue c (lower rest)
  end.

(** Truth value of a string: [if s:] holds for the non-empty ones. *)
Definition truthy (s : string) : bool :=
  match s with EmptyString => false | String _ _ => true end.

(** The ASCII whitespace [float()] strips from both ends: tab, line feed,
    vertical tab, form feed, carriage return and space. *)
Definition is_space (c : ascii) : bool :=
  let n := nat_of_ascii c in
  ((9 <=? n) && (n <=? 13)) || (n =? 32).

Fixpoint lstrip (s : string) : string :=
  match s with
  | String c rest => if is_space c then lstrip rest else s
  | EmptyString => EmptyString
  end.

Fixpoint rstrip (s : string) : string :=
  match s with
  | EmptyString => EmptyString
  | String c rest =>
      match rstrip rest with
      | EmptyString => if is_space c then EmptyString else String c EmptyString
      | r => String c r
      end
  end.

Definition strip (s : string) : string := rstrip (lstrip s).

Fixpoint repeat0 (n : nat) : string :=
  match n with O => "" | S k => String "0" (repeat0 k) end.

(** *** The code points of a text *)

Definition byte (c : ascii) : N := N_of_ascii c.

(** A continuation byte of UTF-8: [10xxxxxx]. *)
Definition is_continuation (c : ascii) : bool :=
  (128 <=? byte c)%N && (byte c <? 192)%N.

(** The six payload bits of a continuation byte. *)
Definition low6 (c : ascii) : N := (byte c - 128)%N.

(** What a byte that starts no well-formed sequence is read as. *)
Definition replacement : N := 65533%N.

(** The code point of a two-, three- or four-byte sequence, when the
    sequence is well formed and the shortest for its code point. *)
Definition decode2 (c0 c1 : ascii) : option N :=
  let cp := ((byte c0 - 192) * 64 + low6 c1)%N in
  if (192 <=? byte c0)%N && (byte c0 <? 224)%N && is_continuation c1
     && (128 <=? cp)%N
  then Some cp else None.

Definition decode3 (c0 c1 c2 : ascii) : option N :=
  let cp := (((byte c0 - 224) * 64 + low6 c1) * 64 + low6 c2)%N in
  if (224 <=? byte c0)%N && (byte c0 <? 240)%N
     && is_continuation c1 && is_continuation c2 && (2048 <=? cp)%N
  then Some cp else None.

Definition decode4 (c0 c1 c2 c3 : ascii) : option N :=
  let cp :=
    ((((byte c0 - 240) * 64 + low6 c1) * 64 + low6 c2) * 64 + low6 c3)%N in
  if (240 <=? byte c0)%N && (byte c0 <? 248)%N
     && is_continuation c1 && is_continuation c2 && is_continuation c3
     && (65536 <=? cp)%N && (cp <=? 1114111)%N
  then Some cp else None.

(** The code points a UTF-8 text encodes, in order. *)
Fixpoint code_points (s : string) : list N :=
  match s with
  | EmptyString => []
  | String c0 r0 =>
      if (byte c0 <? 128)%N then byte c0 :: code_points r0
      else
        match r0 with
        | String c1 r1 =>
            match decode2 c0 c1 with
            | Some cp => cp :: code_points r1
            | None =>
                match r1 with
                | String c2 r2 =>
                    match decode3 c0 c1 c2 with
                    | Some cp => cp :: code_points r2
                    | None =>
                        match r2 with
                        | String c3 r3 =>
                            match decode4 c0 c1 c2 c3 with
                            | Some cp => cp :: code_points r3
                            | None => replacement :: code_points r0
                            end
                        | EmptyString => replacement :: code_points r0
                        end
                    end
                | EmptyString => replacement :: code_points r0
                end
            end
        | EmptyString => replacement :: code_points r0
        end
  end.

(** Every byte of [s] is below 128: the text is plain ASCII. *)
Fixpoint ascii_only (s : string) : bool :=
  match s with
  | EmptyString => true
  | String c rest => (nat_of_ascii c <? 128) && ascii_only rest
  end.

(** Decimal digits of a natural number, ["0"] for zero. *)
Definition digits (n : N) : string :=
  NilZero.string_of_uint (N.to_uint n).

(** [digits n] left-padded with zeros to [width] characters. *)
Definition zfill (width : nat) (n : N) : string :=
  let d := digits n in
  repeat0 (width - String.length d) +:+ d.

End PyStr.

(** ** Python exceptions *)

Module PyExc.

(** The classes of the built-in hierarchy this program can meet. *)
Inductive exn : Set :=
| BaseException | KeyboardInterrupt | SystemExit
| Exception | ValueError | TypeError | ArithmeticError | OverflowError.

Definition base (e : exn) : option exn :=
  match e with
  | BaseException => None
  | KeyboardInterrupt | SystemExit | Exception => Some BaseException
  | ValueError | TypeError | ArithmeticError => Some Exception
  | OverflowError => Some ArithmeticError
  end.

Definition exn_eqb (a b : exn) : bool :=
  match a, b with
  | BaseException, BaseException | KeyboardInterrupt, KeyboardInterrupt
  | SystemExit, SystemExit | Exception, Exception
  | ValueError, ValueError | TypeError, TypeError
  | ArithmeticError, ArithmeticError | OverflowError, OverflowError => true
  | _, _ => false
  end.

(** [issubclass(e, cls)]; the hierarchy above is three levels deep. *)
Fixpoint issubclass_fuel (fuel : nat) (e cls : exn) : bool :=
  exn_eqb e cls ||
  match fuel, base e with
  | S k, Some b => issubclass_fuel k b cls
  | _, _ => false
  end.

Definition issubclass : exn -> exn -> bool := issubclass_fuel 3.

(** The outcome of running a piece of code. *)
Inductive Exc (A : Type) : Type :=
| Return (a : A)
| Raise (e : exn).
Arguments Return {A} a.
Arguments Raise {A} e.

Definition bind {A B} (m : Exc A) (k : A -> Exc B) : Exc B :=
  match m with
  | Return a => k a
  | Raise e => Raise e
  end.

(** [try: body  except cls: handler]. *)
Definition try_except {A} (body : Exc A) (cls : exn) (handler : Exc A) : Exc A :=
  match body with
  | Return a => Return a
  | Raise e => if issubclass e cls then handler else Raise e
  end.

End PyExc.

Import PyExc.

(** [Exc] is a monad in stdpp's sense, which gives the [x ← m; k] notation. *)
#[global] Instance Exc_ret : MRet Exc := fun A a => Return a.
#[global] Instance Exc_bind : MBind Exc := fun A B k m => bind m k.

(** ** Python floats *)

Module PyFloat.

Definition prec : Z := 53.
Definition emax : Z := 1024.

(** The four order comparisons; each is [False] when an operand is NaN. *)
Definition float_lt (x y : float) : bool := PrimFloat.ltb x y.
Definition float_le (x y : float) : bool := PrimFloat.leb x y.
Definition float_gt (x y : float) : bool := PrimFloat.ltb y x.
Definition float_ge (x y : float) : bool := PrimFloat.leb y x.

(** *** [format(x, ".kf")] *)

(** [num / den] rounded to the nearest integer, ties to even. *)
Definition round_half_even (num den : Z) : Z :=
  let q := (num / den)%Z in
  match (2 * (num mod den) ?= den)%Z with
  | Lt => q
  | Gt => (q + 1)%Z
  | Eq => if Z.even q then q else (q + 1)%Z
  end.

(** [m * 2^e * 10^k] rounded to an integer. *)
Definition scaled (k : nat) (m : positive) (e : Z) : N :=
  let num := (Z.pos m * 10 ^ Z.of_nat k)%Z in
  Z.to_N (if (0 <=? e)%Z then num * 2 ^ e else round_half_even num (2 ^ (- e)))%Z.

(** The digits of [n / 10^k] with [k] decimals. *)
Definition fixed (k : nat) (n : N) : string :=
  let p := (10 ^ N.of_nat k)%N in
  PyStr.digits (n / p) +:+
  match k with
  | O => ""
  | S _ => "." +:+ PyStr.zfill k (n mod p)
  end.

Definition sign (s : bool) : string := if s then "-" else "".

Definition format_f (k : nat) (x : float) : string :=
  match Prim2SF x with
  | S754_nan => "nan"
  | S754_infinity s => sign s +:+ "inf"
  | S754_zero s => sign s +:+ fixed k 0
  | S754_finite s m e => sign s +:+ fixed k (scaled k m e)
  end.

(** *** [float(s)] for a string

    [float] first rewrites the text to ASCII: a character below 127 is
    kept, a Unicode whitespace character becomes a space, a Unicode
    decimal digit becomes the ASCII digit of its value, and at any other
    character the text is cut and ends in a question mark.  Leading and
    trailing ASCII whitespace is then removed, and what is left is read by
    the grammar of the language reference:
<<
    floatvalue  ::= [sign] (floatnumber | infinity | nan)
    floatnumber ::= number [exponent]
    number      ::= [digitpart] "." digitpart | digitpart ["."]
    exponent    ::= ("e" | "E") [sign] digitpart
    digitpart   ::= digit (["_"] digit)*
>>
    with [inf], [infinity] and [nan] in any letter case; the value is the
    binary64 float nearest to the decimal, ties to even, an infinity on
    overflow.  Text that is not a [floatvalue] raises [ValueError]. *)

(** The whitespace characters of Unicode from 127 on. *)
Definition is_unicode_space (cp : N) : bool :=
  existsb (N.eqb cp)
    [ 133; 160; 5760; 8232; 8233; 8239; 8287; 12288 ]%N
  || ((8192 <=? cp)%N && (cp <=? 8202)%N).

(** The digit zero of every run of ten decimal digits of Unicode 14.0
    (the version of CPython 3.11) outside ASCII, from ARABIC-INDIC DIGIT
    ZERO (U+0660) to SEGMENTED DIGIT ZERO (U+1FBF0). *)
Definition decimal_zeros : list N :=
  [ 0x660; 0x6f0; 0x7c0; 0x966; 0x9e6; 0xa66; 0xae6; 0xb66; 0xbe6; 0xc66;
    0xce6; 0xd66; 0xde6; 0xe50; 0xed0; 0xf20; 0x1040; 0x1090; 0x17e0;
    0x1810; 0x1946; 0x19d0; 0x1a80; 0x1a90; 0x1b50; 0x1bb0; 0x1c40;
    0x1c50; 0xa620; 0xa8d0; 0xa900; 0xa9d0; 0xa9f0; 0xaa50; 0xabf0;
    0xff10; 0x104a0; 0x10d30; 0x11066; 0x110f0; 0x11136; 0x111d0;
    0x112f0; 0x11450; 0x114d0; 0x11650; 0x116c0; 0x11730; 0x118e0;
    0x11950; 0x11c50; 0x11d50; 0x11da0; 0x16a60; 0x16ac0; 0x16b50;
    0x1d7ce; 0x1d7d8; 0x1d7e2; 0x1d7ec; 0x1d7f6; 0x1e140; 0x1e2f0;
    0x1e950; 0x1fbf0 ]%N.

(** The value of a decimal digit outside ASCII. *)
Definition to_decimal (cp : N) : option N :=
  match List.find (fun z => (z <=? cp)%N && (cp <? z + 10)%N) decimal_zeros with
  | Some z => Some (cp - z)%N
  | None => None
  end.

(** The rewriting of decimal digits and spaces to ASCII. *)
Fixpoint decimal_and_space_to_ascii (cps : list N) : string :=
  match cps with
  | [] => EmptyString
  | cp :: rest =>
      if (cp <? 127)%N then
        String (ascii_of_N cp) (decimal_and_space_to_ascii rest)
      else if is_unicode_space cp then
        String " " (decimal_and_space_to_ascii rest)
      else
        match to_decimal cp with
        | Some d =>
            String (ascii_of_N (48 + d)) (decimal_and_space_to_ascii rest)
        | None => "?"
        end
  end.

Definition is_digit (c : ascii) : bool :=
  (48 <=? nat_of_ascii c) && (nat_of_ascii c <=? 57).

Definition digit_val (c : ascii) : N := N.of_nat (nat_of_ascii c - 48).

(** The tail of a [digitpart]: the digits read are appended to [acc],
    [cnt] counts them; the unread text is returned. *)
Fixpoint digitpart_rest (s : string) (acc : N) (cnt : nat) : N * nat * string :=
  match s with
  | String c rest =>
      if is_digit c then digitpart_rest rest (10 * acc + digit_val c)%N (S cnt)
      else if Ascii.eqb c "_" then
        match rest with
        | String d rest' =>
            if is_digit d
            then digitpart_rest rest' (10 * acc + digit_val d)%N (S cnt)
            else (acc, cnt, s)
        | EmptyString => (acc, cnt, s)
        end
      else (acc, cnt, s)
  | EmptyString => (acc, cnt, s)
  end.

(** An optional [digitpart]; zero digits read when there is none. *)
Definition digitpart_opt (s : string) (acc : N) : N * nat * string :=
  match s with
  | String c rest =>
      if is_digit c then digitpart_rest rest (10 * acc + digit_val c)%N 1
      else (acc, O, s)
  | EmptyString => (acc, O, s)
  end.

(** An optional sign: [true] for ["-"]. *)
Definition read_sign (s : string) : bool * string :=
  match s with
  | String c rest =>
      if Ascii.eqb c "-" then (true, rest)
      else if Ascii.eqb c "+" then (false, rest)
      else (false, s)
  | EmptyString => (false, s)
  end.

(** An optional [exponent]; [None] when an ["e"] is not followed by digits. *)
Definition read_exponent (s : string) : option (Z * string) :=
  match s with
  | String c rest =>
      if Ascii.eqb c "e" || Ascii.eqb c "E" then
        let '(neg, rest1) := read_sign rest in
        let '(x, n, rest2) := digitpart_opt rest1 0 in
        match n with
        | O => None
        | S _ => Some (if neg then (- Z.of_N x)%Z else Z.of_N x, rest2)
        end
      else Some (0%Z, s)
  | EmptyString => Some (0%Z, s)
  end.

(** [floatnumber]: the decimal mantissa and the power of ten, when the
    whole text is one. *)
Definition read_floatnumber (s : string) : option (N * Z) :=
  let '(i, ni, rest1) := digitpart_opt s 0 in
  let '(m, nf, rest2) :=
    match rest1 with
    | String "." rest => digitpart_opt rest i
    | _ => (i, O, rest1)
    end in
  match (ni + nf)%nat with
  | O => None
  | S _ =>
      match read_exponent rest2 with
      | Some (x, EmptyString) => Some (m, (x - Z.of_nat nf)%Z)
      | _ => None
      end
  end.

(** The binary64 value nearest to [(-1)^s * m * 10^e], ties to even. *)
Definition of_decimal (s : bool) (m : N) (e : Z) : float :=
  SF2Prim
    match m with
    | N0 => S754_zero s
    | Npos p =>
        if (0 <=? e)%Z
        then binary_round prec emax s (p * Z.to_pos (10 ^ e))%positive 0
        else SFdiv prec emax (S754_finite s p 0)
                             (S754_finite false (Z.to_pos (10 ^ (- e))) 0)
    end.

Definition py_float (x : string) : Exc float :=
  let text := decimal_and_space_to_ascii (PyStr.code_points x) in
  let '(neg, body) := read_sign (PyStr.strip text) in
  let word := PyStr.lower body in
  if String.eqb word "inf" || String.eqb word "infinity"
  then Return (if neg then neg_infinity else infinity)
  else if String.eqb word "nan" then Return nan
  else
    match read_floatnumber body with
    | Some (m, e) => Return (of_decimal neg m e)
    | None => Raise ValueError
    end.

End PyFloat.

Import PyFloat.

(** ** The program: utility functions *)

Definition parse_float (x : string) : Exc (option float) :=
  try_except (v ← py_float x; mret (Some v)) Exception (mret None).

Definition interpret_bulk_density (bd : option float) : string * string :=
  match bd with
  | None => ("Unknown", "No bulk density provided.")
  | Some bd =>
      if float_gt bd 1.43 then
        ("High", "BD = " +:+ format_f 2 bd +:+
           " Mg m⁻³ — exceeds critical ~1.43 (loamy soils): high compaction risk.")
      else if float_gt bd 1.30 then
        ("Moderate", "BD = " +:+ format_f 2 bd +:+
           " Mg m⁻³ (1.30–1.43): moderate compaction risk; watch root restriction.")
      else
        ("Low", "BD = " +:+ format_f 2 bd +:+
           " Mg m⁻³ — within normal range (1.0–1.4).")
  end.

Definition interpret_cone_index (ci : option float) : string * string :=
  match ci with
  | None => ("Unknown", "No cone index provided.")
  | Some ci =>
      if float_ge ci 3.0 then
        ("Very High", "CI = " +:+ format_f 2 ci +:+
           " MPa — near-zero root growth (severe mechanical impedance).")
      else if float_ge ci 1.5 then
        ("High", "CI = " +:+ format_f 2 ci +:+
           " MPa — ~50% root growth reduction expected.")
      else if float_ge ci 0.8 then
        ("Moderate", "CI = " +:+ format_f 2 ci +:+
           " MPa — approaching common trafficability limits (0.8–1.43 MPa).")
      else
        ("Low", "CI = " +:+ format_f 2 ci +:+
           " MPa — generally permissive for root penetration.")
  end.

Definition interpret_moisture (smd : option float) (moisture_cat : string)
  : string * string :=
  match smd with
  | Some smd =>
      (* Prefer numeric SMD if provided *)
      if float_ge smd 10 then
        ("Favourable", "SMD = +" +:+ format_f 1 smd +:+
           " mm: drier conditions favourable for traffic.")
      else if float_ge smd 0 then
        ("Marginal", "SMD = +" +:+ format_f 1 smd +:+
           " mm: marginal trafficability.")
      else
        ("Poor", "SMD = " +:+ format_f 1 smd +:+
           " mm: soil likely wet or near field capacity — high compaction risk.")
  | None =>
      (* Categorical fallback *)
      if String.eqb moisture_cat "dry" || String.eqb moisture_cat "moderate" then
        ("Favourable", "Moisture: " +:+ moisture_cat +:+
           " — relatively safe for operations.")
      else if String.eqb moisture_cat "near_field_capacity"
              || String.eqb moisture_cat "wet" then
        ("Poor", "Moisture: " +:+ moisture_cat +:+
           " — avoid traffic; high compaction risk.")
      else ("Unknown", "No moisture data provided.")
  end.

(** The two reason strings of [interpret_tire_and_load]. *)
Definition tire_reason (tp_kpa : float) : string :=
  "Tire pressure " +:+ format_f 0 tp_kpa +:+
  " kPa > 50 kPa (increases contact stress).".

Definition load_reason (wheel_load_kg : float) : string :=
  "Wheel load " +:+ format_f 0 wheel_load_kg +:+
  " kg ≥ 5000 kg (increases subsoil compaction risk).".

Definition interpret_tire_and_load (tp_kpa wheel_load_kg : option float)
  : string * string :=
  let reasons : list string := [] in
  let reasons :=
    match tp_kpa with
    | Some tp => if float_gt tp 50 then reasons ++ [tire_reason tp] else reasons
    | None => reasons
    end in
  let reasons :=
    match wheel_load_kg with
    | Some wl => if float_ge wl 5000 then reasons ++ [load_reason wl] else reasons
    | None => reasons
    end in
  match reasons with
  | [] => ("Low", "Tire pressure and wheel load within low-risk bounds.")
  | _ :: _ =>
      (* decide level *)
      if existsb (PyStr.contains "≥ 5000") reasons
      then ("High", PyStr.join " " reasons)
      else ("Moderate", PyStr.join " " reasons)
  end.

Definition interpret_rut_depth (rut_cm : option float) : string * string :=
  match rut_cm with
  | None => ("Unknown", "No rut depth provided.")
  | Some rut_cm =>
      if float_gt rut_cm 10 then
        ("High", "Rut depth " +:+ format_f 1 rut_cm +:+
           " cm > 10 cm — severe surface disturbance.")
      else if float_gt rut_cm 3 then
        ("Moderate", "Rut depth " +:+ format_f 1 rut_cm +:+
           " cm — noticeable surface deformation.")
      else
        ("Low", "Rut depth " +:+ format_f 1 rut_cm +:+ " cm — negligible.")
  end.

(** Simple scoring map; tuned to prioritise any 'High' or 'Very High'. *)
Definition score_map : gmap string Z :=
  {[ "Low" := 0%Z; "Favourable" := 0%Z; "Moderate" := 1%Z; "Marginal" := 1%Z;
     "High" := 2%Z; "Very High" := 3%Z; "Poor" := 2%Z; "Unknown" := 0%Z ]}.

(** [score_map.get(l, 0)]. *)
Definition score (l : string) : Z := default 0%Z (score_map !! l).

(** [sum(xs)]: additions from the left, starting at [0]. *)
Definition sum (xs : list Z) : Z := fold_left Z.add xs 0%Z.

Definition aggregate_risk (levels : list string) : string :=
  let total := sum (map score levels) in
  if (total >=? 5)%Z then "High"
  else if (total >=? 2)%Z then "Moderate"
  else "Low".

Definition recommendations (overall_level : string) : list string :=
  if String.eqb overall_level "High" then
    [ "Avoid field traffic until soil dries (aim SMD ≥ +10 mm) or BD/CI improve.";
      "Reduce tire pressure and/or reduce axle/wheel loads; use wide tires or tracks.";
      "Use Controlled Traffic Farming (confine compaction to fixed lanes).";
      "If persistent subsoil compaction is confirmed, consider deep ripping where agronomically appropriate." ]
  else if String.eqb overall_level "Moderate" then
    [ "Lower tire pressures and reduce loads where feasible.";
      "Schedule operations for drier windows; avoid repeated passes.";
      "Monitor BD and CI after operations; adjust tactics accordingly." ]
  else
    [ "Field conditions acceptable for operations; continue routine monitoring of BD and CI.";
      "Practice best traffic management to avoid long-term compaction (CTF, wide tires)." ].

(** ** The program: the measurement form *)

(** What the [if submitted:] block computes and then displays. *)
Record Assessment : Type := mkAssessment {
  bd_level : string;    bd_note : string;
  ci_level : string;    ci_note : string;
  moist_level : string; moist_note : string;
  tire_level : string;  tire_note : string;
  rut_level : string;   rut_note : string;
  overall : string;
  actions : list string
}.

(** The block, from the seven widget values. *)
Definition run_assessment
    (bd_input ci_input smd_input moist_cat tp_input wl_input rut_input : string)
  : Exc Assessment :=
  (* parse *)
  bd ← parse_float bd_input;
  ci ← parse_float ci_input;
  smd ← parse_float smd_input;
  tp ← parse_float tp_input;
  wl ← parse_float wl_input;
  rut ← parse_float rut_input;
  let '(bd_level, bd_note) := interpret_bulk_density bd in
  let '(ci_level, ci_note) := interpret_cone_index ci in
  let '(moist_level, moist_note) := interpret_moisture smd moist_cat in
  let '(tire_level, tire_note) := interpret_tire_and_load tp wl in
  let '(rut_level, rut_note) := interpret_rut_depth rut in
  let overall :=
    aggregate_risk [bd_level; ci_level; moist_level; tire_level; rut_level] in
  mret (mkAssessment bd_level bd_note ci_level ci_note moist_level moist_note
          tire_level tire_note rut_level rut_note overall
          (recommendations overall)).

(** ** The program: quick question and answer *)

Definition trafficability_answer : string :=
  "Trafficability: capacity of land to support vehicle operations without causing significant soil degradation (compaction, rutting). Influenced by moisture, texture, and load.".

Definition compaction_answer : string :=
  "Soil compaction: increase in bulk density and soil strength caused by applied stresses, reducing porosity, aeration and infiltration. Measured with bulk density and cone index.".

Definition bulk_density_answer : string :=
  "Bulk density typical normal range: 1.0–1.4 Mg m⁻³. BD > 1.4 Mg m⁻³ indicates compaction; critical ~1.43 Mg m⁻³ for loam.".

Definition cone_index_answer : string :=
  "Cone index (CI): 0.8–1.43 MPa used for critical trafficability; 1.5 MPa ≈ 50% root growth reduction; 3.0 MPa ≈ near-zero root penetration.".

Definition smd_answer : string :=
  "SMD: positive values (e.g., +10 mm) indicate drier conditions favourable for traffic. Wet soil at or above field capacity is high risk for compaction.".

Definition fallback_answer : string :=
  "I provide definitions, thresholds, and deterministic assessments. For an assessment use the measurement form above.".

(** The text written for a query; [None] when nothing is written. *)
Definition quick_answer (query : string) : option string :=
  if PyStr.truthy query then
    let q := PyStr.lower query in
    if PyStr.contains "trafficability" q then Some trafficability_answer
    else if PyStr.contains "compaction" q then Some compaction_answer
    else if PyStr.contains "bulk density" q || PyStr.contains "bd" q then
      Some bulk_density_answer
    else if PyStr.contains "cone index" q || PyStr.contains "ci" q then
      Some cone_index_answer
    else if PyStr.contains "smd" q || PyStr.contains "soil moisture deficit" q then
      Some smd_answer
    else Some fallback_answer
  else None.

(** ** Specification-side definitions

    These follow the words of the specification; the theorems below compare
    them with the program. *)

Module Spec.

(** The fixed weight table of the aggregator, in the order it is listed. *)
Definition weight_table : list (string * Z) :=
  [ ("Low", 0%Z); ("Favourable", 0%Z); ("Unknown", 0%Z);
    ("Moderate", 1%Z); ("Marginal", 1%Z);
    ("High", 2%Z); ("Poor", 2%Z); ("Very High", 3%Z) ].

(** The weight of a label: its table entry, and [0] for any other label. *)
Definition weight (label : string) : Z :=
  match List.find (fun entry => String.eqb (fst entry) label) weight_table with
  | Some entry => snd entry
  | None => 0%Z
  end.

(** The overall category of a total weight. *)
Definition overall_of (total : Z) : string :=
  if (5 <=? total)%Z then "High"
  else if (2 <=? total)%Z then "Moderate"
  else "Low".

(** The number of levels with a nonzero weight under the scoring map. *)
Definition nonzero_count (levels : list string) : nat :=
  length (List.filter (fun l => negb (score l =? 0)%Z) levels).

(** The tire-pressure reason triggers: [tp] present and [tp > 50]. *)
Definition tire_triggers (tp : option float) : bool :=
  match tp with Some t => float_gt t 50 | None => false end.

(** The wheel-load reason triggers: [wl] present and [wl >= 5000]. *)
Definition load_triggers (wl : option float) : bool :=
  match wl with Some w => float_ge w 5000 | None => false end.

(** The triggered reason strings, tire pressure first. *)
Definition triggered (tp wl : option float) : list string :=
  match tp with
  | Some t => if float_gt t 50 then [tire_reason t] else []
  | None => []
  end ++
  match wl with
  | Some w => if float_ge w 5000 then [load_reason w] else []
  | None => []
  end.

(** The keyword sets of the question/answer lookup in priority order,
    each with its paragraph. *)
Definition qa_table : list (list string * string) :=
  [ (["trafficability"], trafficability_answer);
    (["compaction"], compaction_answer);
    (["bulk density"; "bd"], bulk_density_answer);
    (["cone index"; "ci"], cone_index_answer);
    (["smd"; "soil moisture deficit"], smd_answer) ].

(** Some keyword of the set occurs in [q]. *)
Definition matches (q : string) (keywords : list string) : bool :=
  existsb (fun k => PyStr.contains k q) keywords.

(** The paragraph of the first set with a keyword in [q], else the
    fallback message. *)
Definition lookup (q : string) : string :=
  match List.find (fun entry => matches q (fst entry)) qa_table with
  | Some entry => snd entry
  | None => fallback_answer
  end.

(** No keyword of any set occurs in [q]. *)
Definition no_keyword (q : string) : bool :=
  forallb (fun entry => negb (matches q (fst entry))) qa_table.

(** What [parse_float] hands to the evaluators for a widget text. *)
Definition parsed (x : string) : option float :=
  match py_float x with
  | Return v => Some v
  | Raise _ => None
  end.

(** The number of levels that score [2] or more. *)
Definition severe_count (levels : list string) : nat :=
  length (List.filter (fun l => (2 <=? score l)%Z) levels).

(** A widget text with text that [float()] rejects replaced by the empty
    text. *)
Definition blank_invalid (x : string) : string :=
  match py_float x with
  | Return _ => x
  | Raise _ => ""
  end.

(** The six texts the question/answer lookup can write. *)
Definition answers : list string :=
  [ trafficability_answer; compaction_answer; bulk_density_answer;
    cone_index_answer; smd_answer; fallback_answer ].

End Spec.

(** ** The order of binary64 floats *)

Section FloatOrder.

Definition cmp_lt (c : option comparison) : bool :=
  match c with Some Lt => true | _ => false end.

Definition cmp_le (c : option comparison) : bool :=
  match c with Some Lt | Some Eq => true | _ => false end.

Lemma SFltb_cmp a b : SFltb a b = cmp_lt (SFcompare a b).
Proof. reflexivity. Qed.

Lemma SFleb_cmp a b : SFleb a b = cmp_le (SFcompare a b).
Proof. unfold SFleb. destruct (SFcompare a b) as [[]|]; reflexivity. Qed.

(** [SFcompare] orders by sign, then exponent, then mantissa; each case
    below is a comparison of integers. *)
Ltac cmp_cases :=
  repeat match goal with
  | |- context [(?x ?= ?y)%Z] => destruct (Z.compare_spec x y)
  | H : context [(?x ?= ?y)%Z] |- _ => destruct (Z.compare_spec x y)
  | |- context [PosDef.Pos.compare_cont Eq ?x ?y] =>
      change (PosDef.Pos.compare_cont Eq x y) with (Pos.compare x y);
      destruct (Pos.compare_spec x y)
  | H : context [PosDef.Pos.compare_cont Eq ?x ?y] |- _ =>
      change (PosDef.Pos.compare_cont Eq x y) with (Pos.compare x y) in H;
      destruct (Pos.compare_spec x y)
  end.

Ltac sf_order a b c :=
  rewrite ?SFltb_cmp, ?SFleb_cmp;
  destruct a as [[]|[]| |[] ? ?], b as [[]|[]| |[] ? ?], c as [[]|[]| |[] ? ?];
  simpl; try discriminate; try reflexivity; intros;
  cmp_cases; simpl in *; subst; try discriminate; try reflexivity; try lia.

Lemma SFlt_le_trans a b c :
  SFltb a b = true -> SFleb b c = true -> SFltb a c = true.
Proof. sf_order a b c. Qed.

Lemma SFle_trans a b c :
  SFleb a b = true -> SFleb b c = true -> SFleb a c = true.
Proof. sf_order a b c. Qed.

Lemma SFlt_not_ge a b : SFltb a b = true -> SFleb b a = false.
Proof.
  rewrite SFltb_cmp, SFleb_cmp.
  destruct a as [[]|[]| |[] ? ?], b as [[]|[]| |[] ? ?];
    simpl; try discriminate; try reflexivity; intros;
    cmp_cases; simpl in *; subst; try discriminate; try reflexivity; try lia.
Qed.

Lemma SFle_not_gt a b : SFleb a b = true -> SFltb b a = false.
Proof.
  rewrite SFltb_cmp, SFleb_cmp.
  destruct a as [[]|[]| |[] ? ?], b as [[]|[]| |[] ? ?];
    simpl; try discriminate; try reflexivity; intros;
    cmp_cases; simpl in *; subst; try discriminate; try reflexivity; try lia.
Qed.

(** [x <= a] and [a <= b] exclude [x > b]. *)
Lemma le_excludes_gt (x a b : float) :
  float_le x a = true -> float_le a b = true -> float_gt x b = false.
Proof.
  unfold float_le, float_gt. rewrite !leb_spec, ltb_spec. intros Hxa Hab.
  apply SFle_not_gt. exact (SFle_trans _ _ _ Hxa Hab).
Qed.

(** [x < a] and [a <= b] exclude [x >= b]. *)
Lemma lt_excludes_ge (x a b : float) :
  float_lt x a = true -> float_le a b = true -> float_ge x b = false.
Proof.
  unfold float_lt, float_le, float_ge. rewrite !leb_spec, ltb_spec. intros Hxa Hab.
  apply SFlt_not_ge. exact (SFlt_le_trans _ _ _ Hxa Hab).
Qed.

End FloatOrder.

(** ** Strings: occurrence and plain ASCII text *)

Section StringFacts.

Import PyStr.

Lemma ascii_only_app a b : ascii_only (a +:+ b) = ascii_only a && ascii_only b.
Proof.
  induction a as [|c a IH]; simpl; [reflexivity|].
  rewrite IH. apply andb_assoc.
Qed.

Lemma contains_app_r sub before s :
  contains sub s = true -> contains sub (before +:+ s) = true.
Proof.
  intros H. induction before as [|c before IH]; simpl; [exact H|].
  rewrite IH. apply orb_true_r.
Qed.

(** A needle that starts with a byte outside ASCII is in no ASCII text. *)
Lemma contains_ascii_only c sub s :
  (nat_of_ascii c <? 128) = false -> ascii_only s = true ->
  contains (String c sub) s = false.
Proof.
  intros Hc. induction s as [|d s IH]; simpl; intros Hs; [reflexivity|].
  apply andb_true_iff in Hs as [Hd Hs].
  rewrite (IH Hs), orb_false_r.
  destruct (ascii_dec c d) as [->|_]; [congruence | reflexivity].
Qed.

Lemma string_of_uint_ascii d : ascii_only (NilEmpty.string_of_uint d) = true.
Proof. induction d; simpl; auto. Qed.

Lemma digits_ascii n : ascii_only (digits n) = true.
Proof.
  unfold digits, NilZero.string_of_uint.
  destruct (N.to_uint n); try reflexivity; apply string_of_uint_ascii.
Qed.

Lemma repeat0_ascii n : ascii_only (repeat0 n) = true.
Proof. induction n; simpl; auto. Qed.

Lemma zfill_ascii w n : ascii_only (zfill w n) = true.
Proof.
  unfold zfill. rewrite ascii_only_app, repeat0_ascii, digits_ascii. reflexivity.
Qed.

Lemma fixed_ascii k n : ascii_only (fixed k n) = true.
Proof.
  unfold fixed. rewrite ascii_only_app, digits_ascii.
  destruct k; [reflexivity|].
  rewrite ascii_only_app, zfill_ascii. reflexivity.
Qed.

(** A formatted float is made of digits, a sign, a point, or is one of
    [nan], [inf], [-inf]. *)
Lemma format_f_ascii k x : ascii_only (format_f k x) = true.
Proof.
  unfold format_f.
  destruct (Prim2SF x) as [s|s| |s m e];
    rewrite ?ascii_only_app, ?fixed_ascii; try destruct s; reflexivity.
Qed.

(** The mark [any("≥ 5000" in r ...)] looks for is in every wheel-load
    reason and in no tire-pressure reason, whatever the number printed. *)
Lemma load_reason_marked w : contains "≥ 5000" (load_reason w) = true.
Proof.
  unfold load_reason.
  do 2 apply contains_app_r. reflexivity.
Qed.

Lemma tire_reason_unmarked t : contains "≥ 5000" (tire_reason t) = false.
Proof.
  unfold tire_reason.
  apply contains_ascii_only; [reflexivity|].
  rewrite !ascii_only_app, format_f_ascii. reflexivity.
Qed.

End StringFacts.

(** ** The indicator evaluators *)

(** C6. Bulk density: an absent value gives [Unknown]; [bd > 1.43] gives
    [High]; [1.30 < bd <= 1.43] gives [Moderate]; [bd <= 1.30] gives [Low].
    The boundary [1.43] itself is [Moderate], [1.44] is [High], [1.30] is
    [Low] and [1.31] is [Moderate]. *)
Theorem interpret_bulk_density_thresholds :
  fst (interpret_bulk_density None) = "Unknown" /\
  (forall bd : float, float_gt bd 1.43 = true ->
     fst (interpret_bulk_density (Some bd)) = "High") /\
  (forall bd : float, float_gt bd 1.30 = true -> float_le bd 1.43 = true ->
     fst (interpret_bulk_density (Some bd)) = "Moderate") /\
  (forall bd : float, float_le bd 1.30 = true ->
     fst (interpret_bulk_density (Some bd)) = "Low") /\
  fst (interpret_bulk_density (Some 1.43%float)) = "Moderate" /\
  fst (interpret_bulk_density (Some 1.44%float)) = "High" /\
  fst (interpret_bulk_density (Some 1.30%float)) = "Low" /\
  fst (interpret_bulk_density (Some 1.31%float)) = "Moderate".
Proof.
  repeat split; try reflexivity; intros bd H; unfold interpret_bulk_density.
  - rewrite H. reflexivity.
  - intros H'. rewrite (le_excludes_gt bd 1.43 1.43 H' eq_refl), H. reflexivity.
  - rewrite (le_excludes_gt bd 1.30 1.43 H eq_refl).
    rewrite (le_excludes_gt bd 1.30 1.30 H eq_refl). reflexivity.
Qed.

Lemma interpret_bulk_density_thresholds_witness :
  float_gt 1.35 1.30 = true /\ float_le 1.35 1.43 = true /\
  fst (interpret_bulk_density (Some 1.35%float)) = "Moderate".
Proof.
  split; [reflexivity | split; [reflexivity|]].
  exact (proj1 (proj2 (proj2 interpret_bulk_density_thresholds))
           1.35%float eq_refl eq_refl).
Defined.

(** C7. Cone index, thresholds tried from the highest down, the first that
    holds deciding: an absent value gives [Unknown]; [ci >= 3.0] gives
    [Very High]; [1.5 <= ci < 3.0] gives [High]; [0.8 <= ci < 1.5] gives
    [Moderate]; [ci < 0.8] gives [Low].  The boundaries [0.8], [1.5], [3.0]
    fall in the higher category; [0.79] is [Low]. *)
Theorem interpret_cone_index_thresholds :
  fst (interpret_cone_index None) = "Unknown" /\
  (forall ci : float, float_ge ci 3.0 = true ->
     fst (interpret_cone_index (Some ci)) = "Very High") /\
  (forall ci : float, float_ge ci 1.5 = true -> float_lt ci 3.0 = true ->
     fst (interpret_cone_index (Some ci)) = "High") /\
  (forall ci : float, float_ge ci 0.8 = true -> float_lt ci 1.5 = true ->
     fst (interpret_cone_index (Some ci)) = "Moderate") /\
  (forall ci : float, float_lt ci 0.8 = true ->
     fst (interpret_cone_index (Some ci)) = "Low") /\
  fst (interpret_cone_index (Some 0.8%float)) = "Moderate" /\
  fst (interpret_cone_index (Some 1.5%float)) = "High" /\
  fst (interpret_cone_index (Some 3.0%float)) = "Very High" /\
  fst (interpret_cone_index (Some 0.79%float)) = "Low".
Proof.
  repeat split; try reflexivity; intros ci H; unfold interpret_cone_index.
  - rewrite H. reflexivity.
  - intros H'. rewrite (lt_excludes_ge ci 3.0 3.0 H' eq_refl), H. reflexivity.
  - intros H'. rewrite (lt_excludes_ge ci 1.5 3.0 H' eq_refl).
    rewrite (lt_excludes_ge ci 1.5 1.5 H' eq_refl), H. reflexivity.
  - rewrite (lt_excludes_ge ci 0.8 3.0 H eq_refl).
    rewrite (lt_excludes_ge ci 0.8 1.5 H eq_refl).
    rewrite (lt_excludes_ge ci 0.8 0.8 H eq_refl). reflexivity.
Qed.

Lemma interpret_cone_index_thresholds_witness :
  float_ge 2.0 1.5 = true /\ float_lt 2.0 3.0 = true /\
  fst (interpret_cone_index (Some 2.0%float)) = "High".
Proof.
  split; [reflexivity | split; [reflexivity|]].
  exact (proj1 (proj2 (proj2 interpret_cone_index_thresholds))
           2.0%float eq_refl eq_refl).
Defined.

(** C8. Rut depth: an absent value gives [Unknown]; [rut > 10] gives [High];
    [3 < rut <= 10] gives [Moderate]; [rut <= 3] gives [Low].  So [3] is
    [Low], [3.01] is [Moderate], [10] is [Moderate] and [10.01] is [High]. *)
Theorem interpret_rut_depth_thresholds :
  fst (interpret_rut_depth None) = "Unknown" /\
  (forall rut : float, float_gt rut 10 = true ->
     fst (interpret_rut_depth (Some rut)) = "High") /\
  (forall rut : float, float_gt rut 3 = true -> float_le rut 10 = true ->
     fst (interpret_rut_depth (Some rut)) = "Moderate") /\
  (forall rut : float, float_le rut 3 = true ->
     fst (interpret_rut_depth (Some rut)) = "Low") /\
  fst (interpret_rut_depth (Some 3%float)) = "Low" /\
  fst (interpret_rut_depth (Some 3.01%float)) = "Moderate" /\
  fst (interpret_rut_depth (Some 10%float)) = "Moderate" /\
  fst (interpret_rut_depth (Some 10.01%float)) = "High".
Proof.
  repeat split; try reflexivity; intros rut H; unfold interpret_rut_depth.
  - rewrite H. reflexivity.
  - intros H'. rewrite (le_excludes_gt rut 10 10 H' eq_refl), H. reflexivity.
  - rewrite (le_excludes_gt rut 3 10 H eq_refl).
    rewrite (le_excludes_gt rut 3 3 H eq_refl). reflexivity.
Qed.

Lemma interpret_rut_depth_thresholds_witness :
  float_gt 12 10 = true /\ fst (interpret_rut_depth (Some 12%float)) = "High".
Proof.
  split; [reflexivity|].
  exact (proj1 (proj2 interpret_rut_depth_thresholds) 12%float eq_refl).
Defined.

(** C2. Moisture.  With [smd] present the categorical input plays no part
    (level and note are the same for any two categories) and the level is
    [Favourable] for [smd >= 10], [Marginal] for [0 <= smd < 10], [Poor] for
    [smd < 0].  With [smd] absent the level is [Favourable] for [dry] and
    [moderate], [Poor] for [near_field_capacity] and [wet], [Unknown] for
    any other category, the empty one included.  [smd = 5] with [wet] is
    [Marginal]. *)
Theorem interpret_moisture_precedence :
  (forall (smd : float) (cat cat' : string),
     interpret_moisture (Some smd) cat = interpret_moisture (Some smd) cat') /\
  (forall (smd : float) (cat : string), float_ge smd 10 = true ->
     fst (interpret_moisture (Some smd) cat) = "Favourable") /\
  (forall (smd : float) (cat : string), float_ge smd 0 = true -> float_lt smd 10 = true ->
     fst (interpret_moisture (Some smd) cat) = "Marginal") /\
  (forall (smd : float) (cat : string), float_lt smd 0 = true ->
     fst (interpret_moisture (Some smd) cat) = "Poor") /\
  (forall cat : string, cat = "dry" \/ cat = "moderate" ->
     fst (interpret_moisture None cat) = "Favourable") /\
  (forall cat : string, cat = "near_field_capacity" \/ cat = "wet" ->
     fst (interpret_moisture None cat) = "Poor") /\
  (forall cat : string,
     cat <> "dry" -> cat <> "moderate" ->
     cat <> "near_field_capacity" -> cat <> "wet" ->
     fst (interpret_moisture None cat) = "Unknown") /\
  fst (interpret_moisture None "") = "Unknown" /\
  fst (interpret_moisture (Some 5%float) "wet") = "Marginal".
Proof.
  repeat split; try reflexivity.
  - intros smd cat H. unfold interpret_moisture. rewrite H. reflexivity.
  - intros smd cat H H'. unfold interpret_moisture.
    rewrite (lt_excludes_ge smd 10 10 H' eq_refl), H. reflexivity.
  - intros smd cat H. unfold interpret_moisture.
    rewrite (lt_excludes_ge smd 0 10 H eq_refl).
    rewrite (lt_excludes_ge smd 0 0 H eq_refl). reflexivity.
  - intros cat [-> | ->]; reflexivity.
  - intros cat [-> | ->]; reflexivity.
  - intros cat H1 H2 H3 H4. unfold interpret_moisture.
    apply String.eqb_neq in H1, H2, H3, H4.
    rewrite H1, H2, H3, H4. reflexivity.
Qed.

Lemma interpret_moisture_precedence_witness :
  float_ge 5 0 = true /\ float_lt 5 10 = true /\
  fst (interpret_moisture (Some 5%float) "wet") = "Marginal".
Proof.
  split; [reflexivity | split; [reflexivity|]].
  exact (proj1 (proj2 (proj2 interpret_moisture_precedence))
           5%float "wet" eq_refl eq_refl).
Defined.

(** ** Tire pressure and wheel load *)

(** The evaluator in closed form: the category from the two triggers, the
    note from the triggered reasons. *)
Lemma interpret_tire_and_load_cases tp wl :
  interpret_tire_and_load tp wl =
  match Spec.tire_triggers tp, Spec.load_triggers wl with
  | false, false =>
      ("Low", "Tire pressure and wheel load within low-risk bounds.")
  | _, true => ("High", PyStr.join " " (Spec.triggered tp wl))
  | true, false => ("Moderate", PyStr.join " " (Spec.triggered tp wl))
  end.
Proof.
  unfold interpret_tire_and_load, Spec.triggered, Spec.tire_triggers,
    Spec.load_triggers.
  destruct tp as [t|], wl as [w|];
    try destruct (float_gt t 50); try destruct (float_ge w 5000);
    cbn [app existsb];
    rewrite ?load_reason_marked, ?tire_reason_unmarked; reflexivity.
Qed.

(** With no reason triggered the note is the fixed low-risk sentence, not
    the (empty) concatenation of the triggered reasons. *)
Lemma low_risk_note_is_no_concatenation :
  Spec.triggered None None = [] /\
  snd (interpret_tire_and_load None None)
  <> PyStr.join " " (Spec.triggered None None) /\
  Spec.triggered (Some 40%float) (Some 3000%float) = [] /\
  snd (interpret_tire_and_load (Some 40%float) (Some 3000%float))
  <> PyStr.join " " (Spec.triggered (Some 40%float) (Some 3000%float)).
Proof. repeat split; try reflexivity; discriminate. Qed.

(** C1, as the program has it.  When neither reason triggers ([tp] absent
    or [tp <= 50], and [wl] absent or [wl < 5000]) the category is [Low].
    When the wheel-load reason triggers ([wl] present and [wl >= 5000]) it
    is [High], whatever [tp] is.  When only the tire-pressure reason
    triggers ([tp] present and [tp > 50], for every such [tp], [5000]
    included) it is [Moderate].  Whenever a reason triggers, the note is
    the triggered reasons joined by single spaces; when none triggers it
    is the fixed low-risk sentence. *)
Theorem interpret_tire_and_load_decision :
  (forall tp wl : option float,
     tp = None \/ (exists t, tp = Some t /\ float_le t 50 = true) ->
     wl = None \/ (exists w, wl = Some w /\ float_lt w 5000 = true) ->
     fst (interpret_tire_and_load tp wl) = "Low") /\
  (forall (tp : option float) (w : float), float_ge w 5000 = true ->
     fst (interpret_tire_and_load tp (Some w)) = "High") /\
  (forall (t : float) (wl : option float),
     float_gt t 50 = true -> Spec.load_triggers wl = false ->
     fst (interpret_tire_and_load (Some t) wl) = "Moderate") /\
  (forall tp wl : option float, Spec.triggered tp wl <> [] ->
     snd (interpret_tire_and_load tp wl) = PyStr.join " " (Spec.triggered tp wl)) /\
  (forall tp wl : option float, Spec.triggered tp wl = [] ->
     snd (interpret_tire_and_load tp wl)
     = "Tire pressure and wheel load within low-risk bounds.") /\
  (forall t w : float, float_gt t 50 = true -> float_ge w 5000 = true ->
     snd (interpret_tire_and_load (Some t) (Some w)) =
     tire_reason t +:+ " " +:+ load_reason w) /\
  fst (interpret_tire_and_load (Some 60%float) (Some 3000%float)) = "Moderate" /\
  fst (interpret_tire_and_load (Some 40%float) (Some 6000%float)) = "High" /\
  fst (interpret_tire_and_load (Some 60%float) (Some 6000%float)) = "High" /\
  fst (interpret_tire_and_load (Some 5000%float) None) = "Moderate" /\
  fst (interpret_tire_and_load (Some 5000%float) (Some 4999%float)) = "Moderate".
Proof.
  repeat split; try reflexivity.
  - intros tp wl Htp Hwl. rewrite interpret_tire_and_load_cases.
    assert (Spec.tire_triggers tp = false) as ->.
    { destruct Htp as [-> | (t & -> & Ht)]; [reflexivity|].
      exact (le_excludes_gt t 50 50 Ht eq_refl). }
    assert (Spec.load_triggers wl = false) as ->.
    { destruct Hwl as [-> | (w & -> & Hw)]; [reflexivity|].
      exact (lt_excludes_ge w 5000 5000 Hw eq_refl). }
    reflexivity.
  - intros tp w Hw. rewrite interpret_tire_and_load_cases.
    cbn [Spec.load_triggers]. rewrite Hw.
    destruct (Spec.tire_triggers tp); reflexivity.
  - intros t wl Ht Hwl. rewrite interpret_tire_and_load_cases.
    cbn [Spec.tire_triggers]. rewrite Ht, Hwl. reflexivity.
  - intros tp wl Hne. rewrite interpret_tire_and_load_cases.
    destruct (Spec.tire_triggers tp) eqn:Ht, (Spec.load_triggers wl) eqn:Hw;
      try reflexivity.
    exfalso. apply Hne. unfold Spec.triggered.
    unfold Spec.tire_triggers, Spec.load_triggers in Ht, Hw.
    destruct tp as [t|], wl as [w|]; rewrite ?Ht, ?Hw; reflexivity.
  - intros tp wl He. rewrite interpret_tire_and_load_cases.
    unfold Spec.triggered in He. unfold Spec.tire_triggers, Spec.load_triggers.
    destruct tp as [t|], wl as [w|];
      try destruct (float_gt t 50); try destruct (float_ge w 5000);
      try discriminate He; reflexivity.
  - intros t w Ht Hw. rewrite interpret_tire_and_load_cases.
    unfold Spec.triggered. cbn [Spec.tire_triggers Spec.load_triggers].
    rewrite Ht, Hw. reflexivity.
Qed.

Lemma interpret_tire_and_load_decision_witness :
  float_gt 5000 50 = true /\ Spec.load_triggers (Some 4999%float) = false /\
  fst (interpret_tire_and_load (Some 5000%float) (Some 4999%float)) = "Moderate".
Proof.
  split; [reflexivity | split; [reflexivity|]].
  exact (proj1 (proj2 (proj2 interpret_tire_and_load_decision))
           5000%float (Some 4999%float) eq_refl eq_refl).
Defined.

(** ** The aggregator *)

Section Aggregator.

(** [score_map.get(l, 0)] is the weight of the specification's table. *)
Lemma score_weight (l : string) : score l = Spec.weight l.
Proof.
  unfold score, score_map, Spec.weight, Spec.weight_table.
  cbn [List.find fst snd].
  repeat match goal with
  | |- context [String.eqb ?k l] =>
      destruct (String.eqb_spec k l) as [<- | ?]; [reflexivity|]
  end.
  rewrite !lookup_insert_ne, lookup_singleton_ne by congruence.
  reflexivity.
Qed.

Lemma weight_range (l : string) : (0 <= Spec.weight l <= 3)%Z.
Proof.
  unfold Spec.weight, Spec.weight_table. cbn [List.find fst snd].
  repeat match goal with
  | |- context [String.eqb ?k l] => destruct (String.eqb k l); [cbn; lia|]
  end.
  cbn; lia.
Qed.

Lemma fold_left_add (xs : list Z) (a : Z) :
  fold_left Z.add xs a = (a + foldr Z.add 0 xs)%Z.
Proof.
  revert a. induction xs as [|x xs IH]; intros a; simpl; [lia|].
  rewrite IH. lia.
Qed.

Lemma aggregate_risk_total (levels : list string) :
  aggregate_risk levels = Spec.overall_of (foldr Z.add 0%Z (map score levels)).
Proof.
  unfold aggregate_risk, sum, Spec.overall_of.
  rewrite fold_left_add, Z.add_0_l, !Z.geb_leb. reflexivity.
Qed.

(** The total is at most three times the number of nonzero levels. *)
Lemma total_bound (levels : list string) :
  (0 <= foldr Z.add 0 (map score levels)
     <= 3 * Z.of_nat (Spec.nonzero_count levels))%Z.
Proof.
  unfold Spec.nonzero_count.
  induction levels as [|l levels IH]; simpl; [lia|].
  pose proof (weight_range l) as Hl. rewrite <- score_weight in Hl.
  destruct (Z.eqb_spec (score l) 0) as [E|N]; simpl; lia.
Qed.

End Aggregator.

(** C3. The aggregator.  The score of a label is its entry in the fixed
    table [Low 0, Favourable 0, Unknown 0, Moderate 1, Marginal 1, High 2,
    Poor 2, Very High 3]; a label outside the table scores [0].  For any
    five labels the result is [High] when the five scores add to [5] or
    more, [Moderate] when they add to [2], [3] or [4], and [Low] below [2]. *)
Theorem aggregate_risk_weighted_sum :
  (forall l : string, score l = Spec.weight l) /\
  (forall l : string, ~ In l (map fst Spec.weight_table) -> score l = 0%Z) /\
  (forall l1 l2 l3 l4 l5 : string,
     aggregate_risk [l1; l2; l3; l4; l5] =
     Spec.overall_of (Spec.weight l1 + Spec.weight l2 + Spec.weight l3
                      + Spec.weight l4 + Spec.weight l5)) /\
  (forall total : Z,
     ((5 <= total)%Z -> Spec.overall_of total = "High") /\
     ((2 <= total < 5)%Z -> Spec.overall_of total = "Moderate") /\
     ((total < 2)%Z -> Spec.overall_of total = "Low")).
Proof.
  split; [exact score_weight|]. split; [|split].
  - intros l Hl. rewrite score_weight.
    unfold Spec.weight, Spec.weight_table. cbn [List.find fst snd].
    repeat match goal with
    | |- context [String.eqb ?k l] =>
        destruct (String.eqb_spec k l) as [<- | ?];
        [exfalso; apply Hl; cbn; tauto|]
    end.
    reflexivity.
  - intros l1 l2 l3 l4 l5. rewrite aggregate_risk_total.
    cbn [map foldr]. rewrite !score_weight. f_equal. lia.
  - intros total. unfold Spec.overall_of. repeat split; intros H.
    + destruct (Z.leb_spec 5 total); [reflexivity | lia].
    + destruct (Z.leb_spec 5 total); [lia|].
      destruct (Z.leb_spec 2 total); [reflexivity | lia].
    + destruct (Z.leb_spec 5 total); [lia|].
      destruct (Z.leb_spec 2 total); [lia | reflexivity].
Qed.

Lemma aggregate_risk_weighted_sum_witness :
  ~ In "Severe" (map fst Spec.weight_table) /\ score "Severe" = 0%Z.
Proof.
  assert (~ In "Severe" (map fst Spec.weight_table)) as H.
  { cbn. intros H. repeat destruct H as [H|H]; try discriminate H; exact H. }
  split; [exact H|].
  exact (proj1 (proj2 aggregate_risk_weighted_sum) "Severe" H).
Defined.

(** C10. One indicator alone never makes the verdict [High].  Every score
    is between [0] and [3]; when at most one level of the list has a
    nonzero score the result is not [High]; a [High] result has at least
    two levels with a nonzero score.  A [Very High] cone index with four
    [Unknown] indicators gives [Moderate]. *)
Theorem aggregate_risk_single_indicator :
  (forall l : string, (0 <= score l <= 3)%Z) /\
  (forall levels : list string,
     Spec.nonzero_count levels <= 1 -> aggregate_risk levels <> "High") /\
  (forall levels : list string,
     aggregate_risk levels = "High" -> 2 <= Spec.nonzero_count levels) /\
  aggregate_risk ["Unknown"; "Very High"; "Unknown"; "Unknown"; "Unknown"]
  = "Moderate".
Proof.
  assert (forall levels, aggregate_risk levels = "High" ->
                         2 <= Spec.nonzero_count levels) as Hhigh.
  { intros levels. rewrite aggregate_risk_total. unfold Spec.overall_of.
    pose proof (total_bound levels) as Hb.
    destruct (Z.leb_spec 5 (foldr Z.add 0%Z (map score levels))); [lia|].
    destruct (Z.leb_spec 2 (foldr Z.add 0%Z (map score levels))); discriminate. }
  split; [|split; [|split]].
  - intros l. rewrite score_weight. apply weight_range.
  - intros levels Hc Hr. apply Hhigh in Hr. lia.
  - exact Hhigh.
  - reflexivity.
Qed.

Lemma aggregate_risk_single_indicator_witness :
  Spec.nonzero_count ["Unknown"; "Very High"; "Unknown"; "Unknown"; "Unknown"] <= 1 /\
  aggregate_risk ["Unknown"; "Very High"; "Unknown"; "Unknown"; "Unknown"] <> "High".
Proof.
  assert (Spec.nonzero_count
            ["Unknown"; "Very High"; "Unknown"; "Unknown"; "Unknown"] <= 1) as H.
  { vm_compute. lia. }
  split; [exact H|].
  exact (proj1 (proj2 aggregate_risk_single_indicator) _ H).
Defined.

(** ** The parser *)

Section Parser.

(** [float()] of a string fails with [ValueError] and nothing else. *)
Lemma py_float_raises (x : string) (e : exn) :
  py_float x = Raise e -> e = ValueError.
Proof.
  unfold py_float. cbv zeta.
  destruct (read_sign _) as [neg body].
  destruct (_ || _); [discriminate|].
  destruct (String.eqb _ _); [discriminate|].
  destruct (read_floatnumber body) as [[m d]|]; [discriminate|].
  congruence.
Qed.

(** [except Exception] lets what is not an [Exception] through. *)
Lemma try_except_propagates {A} (handler : Exc A) :
  try_except (Raise KeyboardInterrupt) Exception handler = Raise KeyboardInterrupt.
Proof. reflexivity. Qed.

(** [try: return body  except Exception: return None], for a [body] that
    raises nothing but [Exception]s. *)
Lemma try_return_or_none (body : Exc float) :
  (forall e, body = Raise e -> issubclass e Exception = true) ->
  try_except (v ← body; mret (Some v)) Exception (mret None)
  = Return match body with Return v => Some v | Raise _ => None end.
Proof.
  intros H. destruct body as [v|e]; [reflexivity|].
  unfold try_except, mbind, Exc_bind, bind.
  rewrite (H e eq_refl). reflexivity.
Qed.

Lemma parse_float_result (x : string) :
  parse_float x
  = Return match py_float x with Return v => Some v | Raise _ => None end.
Proof.
  apply try_return_or_none.
  intros e H. apply py_float_raises in H. subst e. reflexivity.
Qed.

End Parser.

(** C5. The parser.  For every text [parse_float] returns: the number when
    [float()] converts the text, and [None] when the conversion fails; it
    raises for no text.  The empty string and non-numeric text give [None];
    a number written with a no-break space before it, in Arabic-Indic
    digits or in full-width digits is converted. *)
Theorem parse_float_total :
  (forall x : string, exists r : option float, parse_float x = Return r) /\
  (forall (x : string) (v : float),
     py_float x = Return v -> parse_float x = Return (Some v)) /\
  (forall (x : string) (e : exn),
     py_float x = Raise e -> parse_float x = Return None) /\
  parse_float "" = Return None /\
  parse_float "abc" = Return None /\
  parse_float "1,35" = Return None /\
  parse_float "1.35" = Return (Some 1.35%float) /\
  parse_float " 12 " = Return (Some 12%float) /\
  parse_float (String "194" (String "160" "12")) = Return (Some 12%float) /\
  parse_float "١٢" = Return (Some 12%float) /\
  parse_float "１２" = Return (Some 12%float) /\
  parse_float "12é" = Return None.
Proof.
  repeat split; try reflexivity.
  - intros x. rewrite parse_float_result. eexists. reflexivity.
  - intros x v H. rewrite parse_float_result, H. reflexivity.
  - intros x e H. rewrite parse_float_result, H. reflexivity.
Qed.

Lemma parse_float_total_witness :
  py_float "abc" = Raise ValueError /\ parse_float "abc" = Return None.
Proof.
  split; [reflexivity|].
  exact (proj1 (proj2 (proj2 parse_float_total)) "abc" ValueError eq_refl).
Defined.

(** The parser reads the program's own thresholds as the floats the
    evaluators compare with. *)
Example py_float_thresholds :
  map py_float ["1.43"; "1.30"; "3.0"; "1.5"; "0.8"; "10"; "0"; "50"; "5000"; "3"]
  = map Return [1.43; 1.30; 3.0; 1.5; 0.8; 10; 0; 50; 5000; 3]%float.
Proof. reflexivity. Qed.

(** ** The whole assessment *)

(** With every field absent the tire-pressure and wheel-load evaluator
    returns [Low], so the five evaluators do not all return [Unknown]. *)
Lemma all_absent_not_all_unknown :
  ~ (fst (interpret_bulk_density None) = "Unknown" /\
     fst (interpret_cone_index None) = "Unknown" /\
     fst (interpret_moisture None "") = "Unknown" /\
     fst (interpret_tire_and_load None None) = "Unknown" /\
     fst (interpret_rut_depth None) = "Unknown").
Proof. intros (_ & _ & _ & H & _). discriminate H. Qed.

(** C4, as the program has it.  With all six text fields empty and the
    empty moisture category the block completes: bulk density, cone index,
    moisture and rut depth are [Unknown], tire pressure and wheel load is
    [Low], the overall category is [Low] and the actions are the two
    low-risk ones. *)
Theorem all_absent_assessment :
  fst (interpret_bulk_density None) = "Unknown" /\
  fst (interpret_cone_index None) = "Unknown" /\
  fst (interpret_moisture None "") = "Unknown" /\
  fst (interpret_rut_depth None) = "Unknown" /\
  fst (interpret_tire_and_load None None) = "Low" /\
  aggregate_risk ["Unknown"; "Unknown"; "Unknown"; "Low"; "Unknown"] = "Low" /\
  aggregate_risk ["Unknown"; "Unknown"; "Unknown"; "Unknown"; "Unknown"] = "Low" /\
  exists a : Assessment,
    run_assessment "" "" "" "" "" "" "" = Return a /\
    bd_level a = "Unknown" /\ ci_level a = "Unknown" /\
    moist_level a = "Unknown" /\ rut_level a = "Unknown" /\
    tire_level a = "Low" /\
    overall a = "Low" /\
    actions a = recommendations "Low" /\
    actions a =
      [ "Field conditions acceptable for operations; continue routine monitoring of BD and CI.";
        "Practice best traffic management to avoid long-term compaction (CTF, wide tires)." ].
Proof.
  repeat split; try reflexivity.
  eexists. split; [vm_compute; reflexivity|]. repeat split.
Qed.

(** The high-risk scenario: every indicator at its worst gives [High] and
    the four high-risk actions. *)
Example high_risk_assessment :
  exists a : Assessment,
    run_assessment "1.5" "2.0" "-5" "" "70" "6000" "12" = Return a /\
    [bd_level a; ci_level a; moist_level a; tire_level a; rut_level a]
    = ["High"; "High"; "Poor"; "High"; "High"] /\
    overall a = "High" /\
    length (actions a) = 4 /\
    tire_note a =
      "Tire pressure 70 kPa > 50 kPa (increases contact stress). Wheel load 6000 kg ≥ 5000 kg (increases subsoil compaction risk).".
Proof. eexists. split; [vm_compute; reflexivity|]. repeat split. Qed.

(** ** Quick question and answer *)

(** For the empty query nothing is written, not even the fallback message,
    although no keyword occurs in it.  And [ci] is no substring of
    [critical]: a query with that word and no keyword gets the fallback
    message. *)
Lemma quick_answer_empty_query :
  Spec.no_keyword (PyStr.lower "") = true /\
  quick_answer "" <> Some fallback_answer /\
  PyStr.contains "ci" "critical" = false /\
  quick_answer "critical" = Some fallback_answer.
Proof. repeat split; try reflexivity. discriminate. Qed.

Lemma lookup_no_keyword (q : string) :
  Spec.no_keyword q = true -> Spec.lookup q = fallback_answer.
Proof.
  unfold Spec.no_keyword, Spec.lookup, Spec.qa_table.
  cbn [forallb List.find fst snd].
  repeat match goal with
  | |- context [Spec.matches q ?ks] => destruct (Spec.matches q ks)
  end; cbn; congruence.
Qed.

(** C9, as the program has it.  For every non-empty query the answer is the
    paragraph of the first keyword set, in the order [trafficability],
    [compaction], [bulk density]/[bd], [cone index]/[ci], [smd]/[soil
    moisture deficit], with a keyword in the lower-cased query, and the
    fallback message when no keyword occurs in it.  For the empty query
    nothing is written.  [What BD is critical?] gets the bulk-density
    paragraph; no cone-index keyword occurs in it.  Lower-casing is
    Python's where it yields ASCII: [bul], KELVIN SIGN, [ density] gets
    the bulk-density paragraph and [C], U+0130 the cone-index one. *)
Theorem quick_answer_first_match :
  (forall query : string, query <> "" ->
     quick_answer query = Some (Spec.lookup (PyStr.lower query))) /\
  (forall query : string, query <> "" ->
     Spec.no_keyword (PyStr.lower query) = true ->
     quick_answer query = Some fallback_answer) /\
  quick_answer "" = None /\
  quick_answer "What BD is critical?" = Some bulk_density_answer /\
  Spec.matches (PyStr.lower "What BD is critical?") ["cone index"; "ci"] = false /\
  quick_answer ("bul" +:+ String "226" (String "132" (String "170" " density")))
  = Some bulk_density_answer /\
  quick_answer (String "C" (String "196" (String "176" "")))
  = Some cone_index_answer.
Proof.
  assert (forall query, query <> "" ->
            quick_answer query = Some (Spec.lookup (PyStr.lower query))) as H.
  { intros [|c query] Hne; [congruence|].
    unfold quick_answer. cbn [PyStr.truthy].
    generalize (PyStr.lower (String c query)) as q. intros q.
    unfold Spec.lookup, Spec.qa_table, Spec.matches.
    cbn [List.find fst snd existsb]. rewrite !orb_false_r.
    repeat match goal with
    | |- context [PyStr.contains ?k q] => destruct (PyStr.contains k q)
    end; reflexivity. }
  split; [exact H|]. split; [|repeat split].
  intros query Hne Hno. rewrite (H query Hne), (lookup_no_keyword _ Hno).
  reflexivity.
Qed.

Lemma quick_answer_first_match_witness :
  "What BD is critical?" <> "" /\
  quick_answer "What BD is critical?"
  = Some (Spec.lookup (PyStr.lower "What BD is critical?")).
Proof.
  assert ("What BD is critical?" <> "") as H by discriminate.
  split; [exact H|].
  exact (proj1 quick_answer_first_match "What BD is critical?" H).
Defined.

(** ** Risk grows with the measurement *)

Section Monotone.

Lemma float_gt_mono (a b c : float) :
  float_gt a c = true -> float_le a b = true -> float_gt b c = true.
Proof.
  unfold float_gt, float_le. rewrite leb_spec, !ltb_spec.
  apply SFlt_le_trans.
Qed.

Lemma float_ge_mono (a b c : float) :
  float_ge a c = true -> float_le a b = true -> float_ge b c = true.
Proof.
  unfold float_ge, float_le. rewrite !leb_spec.
  apply SFle_trans.
Qed.

Lemma SFcompare_refl (a : spec_float) :
  a <> S754_nan -> SFcompare a a = Some Eq.
Proof.
  intros H. destruct a as [[]|[]| |[] m e]; try reflexivity; try congruence;
    simpl; destruct (Z.compare_spec e e); try lia;
    change (PosDef.Pos.compare_cont Eq m m) with (Pos.compare m m);
    destruct (Pos.compare_spec m m); try lia; reflexivity.
Qed.

Lemma is_nan_spec (x : float) : is_nan x = true -> Prim2SF x = S754_nan.
Proof.
  unfold is_nan. rewrite FloatAxioms.eqb_spec. unfold SFeqb. intros H.
  destruct (Prim2SF x) eqn:E; try reflexivity;
    rewrite SFcompare_refl in H by congruence; discriminate.
Qed.

(** A NaN is neither above nor at-or-above anything. *)
Lemma nan_not_gt (x c : float) : is_nan x = true -> float_gt x c = false.
Proof.
  intros H. unfold float_gt. rewrite ltb_spec, (is_nan_spec x H).
  destruct (Prim2SF c); reflexivity.
Qed.

Lemma nan_not_ge (x c : float) : is_nan x = true -> float_ge x c = false.
Proof.
  intros H. unfold float_ge. rewrite leb_spec, (is_nan_spec x H).
  destruct (Prim2SF c); reflexivity.
Qed.

End Monotone.

(** X1. A larger bulk density, cone index or rut depth never gets a level
    of smaller score. *)
Theorem single_value_evaluators_monotone (a b : float) :
  float_le a b = true ->
  (score (fst (interpret_bulk_density (Some a)))
   <= score (fst (interpret_bulk_density (Some b))))%Z /\
  (score (fst (interpret_cone_index (Some a)))
   <= score (fst (interpret_cone_index (Some b))))%Z /\
  (score (fst (interpret_rut_depth (Some a)))
   <= score (fst (interpret_rut_depth (Some b))))%Z.
Proof.
  intros H.
  unfold interpret_bulk_density, interpret_cone_index, interpret_rut_depth.
  repeat split.
  - destruct (float_gt a 1.43) eqn:A1.
    { rewrite (float_gt_mono a b _ A1 H). reflexivity. }
    destruct (float_gt a 1.30) eqn:A2.
    { rewrite (float_gt_mono a b _ A2 H). destruct (float_gt b 1.43); vm_compute; discriminate. }
    destruct (float_gt b 1.43), (float_gt b 1.30); vm_compute; discriminate.
  - destruct (float_ge a 3.0) eqn:A1.
    { rewrite (float_ge_mono a b _ A1 H). reflexivity. }
    destruct (float_ge a 1.5) eqn:A2.
    { rewrite (float_ge_mono a b _ A2 H). destruct (float_ge b 3.0); vm_compute; discriminate. }
    destruct (float_ge a 0.8) eqn:A3.
    { rewrite (float_ge_mono a b _ A3 H).
      destruct (float_ge b 3.0), (float_ge b 1.5); vm_compute; discriminate. }
    destruct (float_ge b 3.0), (float_ge b 1.5), (float_ge b 0.8);
      vm_compute; discriminate.
  - destruct (float_gt a 10) eqn:A1.
    { rewrite (float_gt_mono a b _ A1 H). reflexivity. }
    destruct (float_gt a 3) eqn:A2.
    { rewrite (float_gt_mono a b _ A2 H). destruct (float_gt b 10); vm_compute; discriminate. }
    destruct (float_gt b 10), (float_gt b 3); vm_compute; discriminate.
Qed.

Lemma single_value_evaluators_monotone_witness :
  float_le 1.2 1.5 = true /\
  (score (fst (interpret_bulk_density (Some 1.2%float)))
   <= score (fst (interpret_bulk_density (Some 1.5%float))))%Z.
Proof.
  split; [reflexivity|].
  exact (proj1 (single_value_evaluators_monotone 1.2 1.5 eq_refl)).
Defined.

(** X2. A larger soil moisture deficit never gets a level of larger score:
    drier soil is never rated worse. *)
Theorem interpret_moisture_antitone (a b : float) (cat cat' : string) :
  float_le a b = true ->
  (score (fst (interpret_moisture (Some b) cat'))
   <= score (fst (interpret_moisture (Some a) cat)))%Z.
Proof.
  intros H. unfold interpret_moisture.
  destruct (float_ge a 10) eqn:A1.
  { rewrite (float_ge_mono a b _ A1 H). reflexivity. }
  destruct (float_ge a 0) eqn:A2.
  { rewrite (float_ge_mono a b _ A2 H). destruct (float_ge b 10); vm_compute; discriminate. }
  destruct (float_ge b 10), (float_ge b 0); vm_compute; discriminate.
Qed.

Lemma interpret_moisture_antitone_witness :
  float_le (-5) 12 = true /\
  (score (fst (interpret_moisture (Some 12%float) "wet"))
   <= score (fst (interpret_moisture (Some (-5)%float) "dry")))%Z.
Proof.
  split; [reflexivity|].
  exact (interpret_moisture_antitone (-5) 12 "dry" "wet" eq_refl).
Defined.

(** X3. A larger tire pressure together with a larger wheel load never
    gets a level of smaller score. *)
Theorem interpret_tire_and_load_monotone (t t' w w' : float) :
  float_le t t' = true -> float_le w w' = true ->
  (score (fst (interpret_tire_and_load (Some t) (Some w)))
   <= score (fst (interpret_tire_and_load (Some t') (Some w'))))%Z.
Proof.
  intros Ht Hw. rewrite !interpret_tire_and_load_cases.
  cbn [Spec.tire_triggers Spec.load_triggers].
  destruct (float_ge w 5000) eqn:W.
  { rewrite (float_ge_mono w w' _ W Hw).
    destruct (float_gt t 50), (float_gt t' 50); vm_compute; discriminate. }
  destruct (float_gt t 50) eqn:T.
  { rewrite (float_gt_mono t t' _ T Ht).
    destruct (float_ge w' 5000); vm_compute; discriminate. }
  destruct (float_gt t' 50), (float_ge w' 5000); vm_compute; discriminate.
Qed.

Lemma interpret_tire_and_load_monotone_witness :
  float_le 40 60 = true /\ float_le 3000 6000 = true /\
  (score (fst (interpret_tire_and_load (Some 40%float) (Some 3000%float)))
   <= score (fst (interpret_tire_and_load (Some 60%float) (Some 6000%float))))%Z.
Proof.
  split; [reflexivity | split; [reflexivity|]].
  exact (interpret_tire_and_load_monotone 40 60 3000 6000 eq_refl eq_refl).
Defined.

(** X4. A NaN measurement passes no threshold test.  Bulk density, cone
    index and rut depth then get [Low], the evaluator's final return, and
    moisture gets [Poor].  In the tire and load evaluator a NaN tire
    pressure or wheel load triggers no reason: the result is the one for
    that input absent, whatever the other input is.  The text [nan]
    parses to such a value. *)
Theorem nan_passes_no_threshold (x : float) :
  is_nan x = true ->
  fst (interpret_bulk_density (Some x)) = "Low" /\
  fst (interpret_cone_index (Some x)) = "Low" /\
  fst (interpret_rut_depth (Some x)) = "Low" /\
  (forall cat, fst (interpret_moisture (Some x) cat) = "Poor") /\
  (forall wl, interpret_tire_and_load (Some x) wl
              = interpret_tire_and_load None wl) /\
  (forall tp, interpret_tire_and_load tp (Some x)
              = interpret_tire_and_load tp None) /\
  parse_float "nan" = Return (Some nan).
Proof.
  intros H.
  unfold interpret_bulk_density, interpret_cone_index, interpret_rut_depth,
    interpret_moisture, interpret_tire_and_load.
  rewrite !(nan_not_gt x _ H), !(nan_not_ge x _ H).
  repeat split.
Qed.

Lemma nan_passes_no_threshold_witness :
  is_nan nan = true /\
  fst (interpret_moisture (Some nan) "dry") = "Poor" /\
  fst (interpret_tire_and_load (Some nan) (Some 6000%float)) = "High" /\
  fst (interpret_tire_and_load (Some 60%float) (Some nan)) = "Moderate".
Proof.
  split; [reflexivity|].
  pose proof (nan_passes_no_threshold nan eq_refl)
    as (_ & _ & _ & Hm & Ht & Hw & _).
  split; [exact (Hm "dry")|].
  split; [rewrite Ht | rewrite Hw]; reflexivity.
Defined.

(** ** More on the aggregator and the recommender *)

Section Totals.

Lemma score_nonneg (l : string) : (0 <= score l)%Z.
Proof. rewrite score_weight. apply weight_range. Qed.

Lemma total_nonneg (levels : list string) :
  (0 <= foldr Z.add 0 (map score levels))%Z.
Proof. apply total_bound. Qed.

Lemma total_member (l : string) (levels : list string) :
  In l levels -> (score l <= foldr Z.add 0 (map score levels))%Z.
Proof.
  induction levels as [|x levels IH]; simpl; [tauto|].
  pose proof (score_nonneg x). pose proof (total_nonneg levels).
  intros [-> | H']; [lia | specialize (IH H'); lia].
Qed.

Lemma total_severe (levels : list string) :
  (2 * Z.of_nat (Spec.severe_count levels)
   <= foldr Z.add 0 (map score levels))%Z.
Proof.
  unfold Spec.severe_count.
  induction levels as [|x levels IH]; simpl; [lia|].
  pose proof (score_nonneg x).
  destruct (Z.leb_spec 2 (score x)); simpl; lia.
Qed.

Lemma score_below_very_high (l : string) :
  l <> "Very High" -> (score l <= 2)%Z.
Proof.
  intros H. rewrite score_weight.
  unfold Spec.weight, Spec.weight_table. cbn [List.find fst snd].
  repeat match goal with
  | |- context [String.eqb ?k l] =>
      destruct (String.eqb_spec k l); [cbn; try lia; congruence|]
  end.
  cbn; lia.
Qed.

Lemma total_without_very_high (levels : list string) :
  (forall l, In l levels -> l <> "Very High") ->
  (foldr Z.add 0 (map score levels)
   <= 2 * Z.of_nat (Spec.nonzero_count levels))%Z.
Proof.
  unfold Spec.nonzero_count.
  induction levels as [|x levels IH]; simpl; intros H; [lia|].
  pose proof (score_below_very_high x (H x (or_introl eq_refl))).
  pose proof (score_nonneg x).
  specialize (IH (fun l Hl => H l (or_intror Hl))).
  destruct (Z.eqb_spec (score x) 0); simpl; lia.
Qed.

Lemma total_Permutation (levels levels' : list string) :
  Permutation levels levels' ->
  foldr Z.add 0%Z (map score levels) = foldr Z.add 0%Z (map score levels').
Proof. induction 1; simpl; lia. Qed.

Lemma total_Forall2 (levels levels' : list string) :
  Forall2 (fun a b => (score a <= score b)%Z) levels levels' ->
  (foldr Z.add 0 (map score levels) <= foldr Z.add 0 (map score levels'))%Z.
Proof. induction 1; simpl; lia. Qed.

Lemma overall_of_monotone (a b : Z) :
  (a <= b)%Z -> (score (Spec.overall_of a) <= score (Spec.overall_of b))%Z.
Proof.
  intros H. unfold Spec.overall_of.
  destruct (Z.leb_spec 5 a), (Z.leb_spec 5 b), (Z.leb_spec 2 a), (Z.leb_spec 2 b);
    try lia; vm_compute; discriminate.
Qed.

Lemma aggregate_then_recommend (levels : list string) :
  (aggregate_risk levels = "High"
   /\ length (recommendations (aggregate_risk levels)) = 4) \/
  (aggregate_risk levels = "Moderate"
   /\ length (recommendations (aggregate_risk levels)) = 3) \/
  (aggregate_risk levels = "Low"
   /\ length (recommendations (aggregate_risk levels)) = 2).
Proof.
  rewrite aggregate_risk_total. unfold Spec.overall_of.
  destruct (_ <=? _)%Z; [left; split; reflexivity|].
  destruct (_ <=? _)%Z; [right; left | right; right]; split; reflexivity.
Qed.

End Totals.

(** X5. For every list of labels the aggregator returns [High], [Moderate]
    or [Low] and nothing else, and the recommender then gives four, three
    or two actions; the recommender's last branch is reached with [Low]
    only. *)
Theorem recommendations_of_aggregate (levels : list string) :
  let r := aggregate_risk levels in
  (r = "High" /\ length (recommendations r) = 4) \/
  (r = "Moderate" /\ length (recommendations r) = 3) \/
  (r = "Low" /\ length (recommendations r) = 2).
Proof.
  cbv zeta. apply aggregate_then_recommend.
Qed.

(** X6. The order of the indicators does not matter to the aggregator. *)
Theorem aggregate_risk_Permutation (levels levels' : list string) :
  Permutation levels levels' ->
  aggregate_risk levels = aggregate_risk levels'.
Proof.
  intros H. rewrite !aggregate_risk_total, (total_Permutation _ _ H).
  reflexivity.
Qed.

Lemma aggregate_risk_Permutation_witness :
  Permutation ["High"; "Low"; "Poor"] ["Poor"; "High"; "Low"] /\
  aggregate_risk ["High"; "Low"; "Poor"] = aggregate_risk ["Poor"; "High"; "Low"].
Proof.
  assert (Permutation ["High"; "Low"; "Poor"] ["Poor"; "High"; "Low"]) as H.
  { apply Permutation_sym, (Permutation_cons_app ["High"; "Low"] []).
    rewrite app_nil_r. apply Permutation_refl. }
  split; [exact H|].
  exact (aggregate_risk_Permutation _ _ H).
Defined.

(** X7. Raising the score of any indicators never lowers the overall
    category. *)
Theorem aggregate_risk_monotone (levels levels' : list string) :
  Forall2 (fun a b => (score a <= score b)%Z) levels levels' ->
  (score (aggregate_risk levels) <= score (aggregate_risk levels'))%Z.
Proof.
  intros H. rewrite !aggregate_risk_total.
  apply overall_of_monotone, total_Forall2, H.
Qed.

Lemma aggregate_risk_monotone_witness :
  Forall2 (fun a b => (score a <= score b)%Z)
    ["Low"; "Moderate"] ["High"; "Very High"] /\
  (score (aggregate_risk ["Low"; "Moderate"])
   <= score (aggregate_risk ["High"; "Very High"]))%Z.
Proof.
  assert (Forall2 (fun a b => (score a <= score b)%Z)
            ["Low"; "Moderate"] ["High"; "Very High"]) as H.
  { repeat constructor; vm_compute; discriminate. }
  split; [exact H|].
  exact (aggregate_risk_monotone _ _ H).
Defined.

(** X8. One indicator at [High], [Poor] or [Very High] (a score of two or
    more) is enough for the overall category not to be [Low]. *)
Theorem aggregate_risk_severe_not_low (l : string) (levels : list string) :
  In l levels -> (2 <= score l)%Z -> aggregate_risk levels <> "Low".
Proof.
  intros Hin Hs. rewrite aggregate_risk_total. unfold Spec.overall_of.
  pose proof (total_member l levels Hin) as Hm.
  destruct (Z.leb_spec 5 (foldr Z.add 0%Z (map score levels))); [discriminate|].
  destruct (Z.leb_spec 2 (foldr Z.add 0%Z (map score levels))); [discriminate|].
  lia.
Qed.

Lemma aggregate_risk_severe_not_low_witness :
  In "Poor" ["Unknown"; "Low"; "Poor"; "Low"; "Unknown"] /\
  (2 <= score "Poor")%Z /\
  aggregate_risk ["Unknown"; "Low"; "Poor"; "Low"; "Unknown"] <> "Low".
Proof.
  assert (In "Poor" ["Unknown"; "Low"; "Poor"; "Low"; "Unknown"]) as H.
  { cbn. auto. }
  assert (2 <= score "Poor")%Z as H2 by (vm_compute; discriminate).
  split; [exact H | split; [exact H2|]].
  exact (aggregate_risk_severe_not_low _ _ H H2).
Defined.

(** X9. Three indicators at a score of two or more always give [High]. *)
Theorem aggregate_risk_three_severe (levels : list string) :
  3 <= Spec.severe_count levels -> aggregate_risk levels = "High".
Proof.
  intros H. rewrite aggregate_risk_total. unfold Spec.overall_of.
  pose proof (total_severe levels).
  destruct (Z.leb_spec 5 (foldr Z.add 0%Z (map score levels))); [reflexivity | lia].
Qed.

Lemma aggregate_risk_three_severe_witness :
  3 <= Spec.severe_count ["High"; "Unknown"; "Poor"; "Low"; "High"] /\
  aggregate_risk ["High"; "Unknown"; "Poor"; "Low"; "High"] = "High".
Proof.
  assert (3 <= Spec.severe_count ["High"; "Unknown"; "Poor"; "Low"; "High"]) as H.
  { vm_compute. lia. }
  split; [exact H|].
  exact (aggregate_risk_three_severe _ H).
Defined.

(** X10. Without a [Very High] level, [High] overall needs at least three
    levels of nonzero score. *)
Theorem aggregate_risk_high_without_very_high (levels : list string) :
  (forall l, In l levels -> l <> "Very High") ->
  aggregate_risk levels = "High" -> 3 <= Spec.nonzero_count levels.
Proof.
  intros Hv. rewrite aggregate_risk_total. unfold Spec.overall_of.
  pose proof (total_without_very_high levels Hv).
  destruct (Z.leb_spec 5 (foldr Z.add 0%Z (map score levels))); [lia|].
  destruct (Z.leb_spec 2 (foldr Z.add 0%Z (map score levels))); discriminate.
Qed.

Lemma aggregate_risk_high_without_very_high_witness :
  (forall l, In l ["High"; "Poor"; "Moderate"] -> l <> "Very High") /\
  aggregate_risk ["High"; "Poor"; "Moderate"] = "High" /\
  3 <= Spec.nonzero_count ["High"; "Poor"; "Moderate"].
Proof.
  assert (forall l, In l ["High"; "Poor"; "Moderate"] -> l <> "Very High") as H.
  { intros l Hl. cbn in Hl. repeat destruct Hl as [<- | Hl]; try discriminate.
    destruct Hl. }
  split; [exact H | split; [reflexivity|]].
  exact (aggregate_risk_high_without_very_high _ H eq_refl).
Defined.

(** ** The evaluators' levels and the block as a whole *)

(** X11. Every evaluator answers within its own fixed set of levels, for
    every input, and each of these levels is a key of the scoring map: the
    default of [score_map.get] is never used on an evaluator's level. *)
Theorem evaluator_levels_scored
    (bd ci smd tp wl rut : option float) (cat : string) :
  In (fst (interpret_bulk_density bd)) ["Unknown"; "High"; "Moderate"; "Low"] /\
  In (fst (interpret_cone_index ci))
     ["Unknown"; "Very High"; "High"; "Moderate"; "Low"] /\
  In (fst (interpret_moisture smd cat))
     ["Favourable"; "Marginal"; "Poor"; "Unknown"] /\
  In (fst (interpret_tire_and_load tp wl)) ["Low"; "High"; "Moderate"] /\
  In (fst (interpret_rut_depth rut)) ["Unknown"; "High"; "Moderate"; "Low"] /\
  Forall (fun l => is_Some (score_map !! l))
    [ fst (interpret_bulk_density bd); fst (interpret_cone_index ci);
      fst (interpret_moisture smd cat); fst (interpret_tire_and_load tp wl);
      fst (interpret_rut_depth rut) ].
Proof.
  assert (In (fst (interpret_bulk_density bd))
            ["Unknown"; "High"; "Moderate"; "Low"]) as Hbd.
  { unfold interpret_bulk_density.
    destruct bd as [x|]; [destruct (float_gt x 1.43), (float_gt x 1.30)|];
      cbn; auto. }
  assert (In (fst (interpret_cone_index ci))
            ["Unknown"; "Very High"; "High"; "Moderate"; "Low"]) as Hci.
  { unfold interpret_cone_index.
    destruct ci as [x|];
      [destruct (float_ge x 3.0), (float_ge x 1.5), (float_ge x 0.8)|];
      cbn; auto 10. }
  assert (In (fst (interpret_moisture smd cat))
            ["Favourable"; "Marginal"; "Poor"; "Unknown"]) as Hsmd.
  { unfold interpret_moisture.
    destruct smd as [x|];
      [destruct (float_ge x 10), (float_ge x 0)
      |destruct (_ || _); [|destruct (_ || _)]];
      cbn; auto. }
  assert (In (fst (interpret_tire_and_load tp wl)) ["Low"; "High"; "Moderate"])
    as Htl.
  { rewrite interpret_tire_and_load_cases.
    destruct (Spec.tire_triggers tp), (Spec.load_triggers wl); cbn; auto. }
  assert (In (fst (interpret_rut_depth rut))
            ["Unknown"; "High"; "Moderate"; "Low"]) as Hrut.
  { unfold interpret_rut_depth.
    destruct rut as [x|]; [destruct (float_gt x 10), (float_gt x 3)|];
      cbn; auto. }
  assert (forall l, In l (map fst Spec.weight_table) ->
                    is_Some (score_map !! l)) as Hkey.
  { intros l Hl. cbn in Hl.
    repeat destruct Hl as [<- | Hl]; try (vm_compute; eexists; reflexivity).
    destruct Hl. }
  repeat split; try assumption.
  repeat constructor; apply Hkey;
    [ revert Hbd | revert Hci | revert Hsmd | revert Htl | revert Hrut ];
    generalize (fst (interpret_bulk_density bd)),
               (fst (interpret_cone_index ci)),
               (fst (interpret_moisture smd cat)),
               (fst (interpret_tire_and_load tp wl)),
               (fst (interpret_rut_depth rut));
    intros l1 l2 l3 l4 l5; cbn; intuition (subst; auto 10).
Qed.

Section Block.

(** The block in closed form: it always returns, and its record is made
    of the evaluators at the parsed values. *)
Lemma run_assessment_result
    (bd_input ci_input smd_input moist_cat tp_input wl_input rut_input : string) :
  run_assessment bd_input ci_input smd_input moist_cat tp_input wl_input rut_input
  = let bd := interpret_bulk_density (Spec.parsed bd_input) in
    let ci := interpret_cone_index (Spec.parsed ci_input) in
    let moist := interpret_moisture (Spec.parsed smd_input) moist_cat in
    let tire :=
      interpret_tire_and_load (Spec.parsed tp_input) (Spec.parsed wl_input) in
    let rut := interpret_rut_depth (Spec.parsed rut_input) in
    let overall := aggregate_risk [bd.1; ci.1; moist.1; tire.1; rut.1] in
    Return (mkAssessment bd.1 bd.2 ci.1 ci.2 moist.1 moist.2 tire.1 tire.2
              rut.1 rut.2 overall (recommendations overall)).
Proof.
  unfold run_assessment. rewrite !parse_float_result.
  fold (Spec.parsed bd_input) (Spec.parsed ci_input) (Spec.parsed smd_input)
       (Spec.parsed tp_input) (Spec.parsed wl_input) (Spec.parsed rut_input).
  cbn [mbind Exc_bind bind].
  destruct (interpret_bulk_density _), (interpret_cone_index _),
    (interpret_moisture _ _), (interpret_tire_and_load _ _),
    (interpret_rut_depth _).
  reflexivity.
Qed.

Lemma parsed_blank_invalid (x : string) :
  Spec.parsed (Spec.blank_invalid x) = Spec.parsed x.
Proof.
  unfold Spec.blank_invalid, Spec.parsed at 2.
  destruct (py_float x) eqn:E; [unfold Spec.parsed; rewrite E|]; reflexivity.
Qed.

End Block.

(** X12. Whatever the seven widgets hold, the block returns an assessment
    and raises nothing; its overall category is the aggregate of its five
    levels and is [Low], [Moderate] or [High]; its actions are those of
    the overall category, between two and four of them. *)
Theorem run_assessment_total
    (bd_input ci_input smd_input moist_cat tp_input wl_input rut_input : string) :
  exists a : Assessment,
    run_assessment bd_input ci_input smd_input moist_cat tp_input wl_input
      rut_input = Return a /\
    overall a = aggregate_risk
      [bd_level a; ci_level a; moist_level a; tire_level a; rut_level a] /\
    In (overall a) ["Low"; "Moderate"; "High"] /\
    actions a = recommendations (overall a) /\
    2 <= length (actions a) <= 4.
Proof.
  rewrite run_assessment_result. cbv zeta. eexists. split; [reflexivity|].
  cbn [overall actions bd_level ci_level moist_level tire_level rut_level].
  split; [reflexivity|].
  match goal with |- context [aggregate_risk ?ls] =>
    destruct (aggregate_then_recommend ls) as [[-> E] | [[-> E] | [-> E]]]
  end; rewrite ?E; cbn [In]; split; auto; split; auto; lia.
Qed.

(** X13. Text that [float()] rejects in a numeric field gives the same
    assessment, notes included, as leaving that field empty. *)
Theorem run_assessment_invalid_as_empty
    (bd_input ci_input smd_input moist_cat tp_input wl_input rut_input : string) :
  run_assessment bd_input ci_input smd_input moist_cat tp_input wl_input rut_input
  = run_assessment (Spec.blank_invalid bd_input) (Spec.blank_invalid ci_input)
      (Spec.blank_invalid smd_input) moist_cat (Spec.blank_invalid tp_input)
      (Spec.blank_invalid wl_input) (Spec.blank_invalid rut_input).
Proof.
  rewrite !run_assessment_result, !parsed_blank_invalid. reflexivity.
Qed.

(** X14. Once the SMD field holds a number the moisture category selected
    changes nothing in the assessment. *)
Theorem run_assessment_ignores_category
    (bd_input ci_input smd_input tp_input wl_input rut_input : string)
    (moist_cat moist_cat' : string) (smd : float) :
  py_float smd_input = Return smd ->
  run_assessment bd_input ci_input smd_input moist_cat tp_input wl_input rut_input
  = run_assessment bd_input ci_input smd_input moist_cat' tp_input wl_input
      rut_input.
Proof.
  intros H. rewrite !run_assessment_result.
  assert (Spec.parsed smd_input = Some smd) as ->
    by (unfold Spec.parsed; rewrite H; reflexivity).
  reflexivity.
Qed.

Lemma run_assessment_ignores_category_witness :
  py_float "12" = Return 12%float /\
  run_assessment "1.2" "" "12" "wet" "" "" "0"
  = run_assessment "1.2" "" "12" "dry" "" "" "0".
Proof.
  split; [reflexivity|].
  exact (run_assessment_ignores_category "1.2" "" "12" "" "" "0" "wet" "dry"
           12%float eq_refl).
Defined.

(** ** More on the question and answer lookup *)

Section Lookup.

Import PyStr.

Lemma append_String (c : ascii) (s t : string) :
  String c s +:+ t = String c (s +:+ t).
Proof. reflexivity. Qed.

Lemma append_empty (t : string) : "" +:+ t = t.
Proof. reflexivity. Qed.

Lemma lower_char_idem (c : ascii) : lower_char (lower_char c) = lower_char c.
Proof. destruct c as [[] [] [] [] [] [] [] []]; reflexivity. Qed.

(** Lower-casing a byte makes it none of the bytes [lower_glue] tests. *)
Lemma lower_char_eqb (c b : ascii) :
  (nat_of_ascii b <? 128) = false ->
  Ascii.eqb (lower_char c) b = Ascii.eqb c b.
Proof.
  intros Hb. destruct (Ascii.eqb_spec c b) as [->|Hne].
  - assert (lower_char b = b) as ->; [|apply Ascii.eqb_refl].
    destruct b as [[] [] [] [] [] [] [] []]; try reflexivity; discriminate Hb.
  - apply Ascii.eqb_neq. intros E. apply Hne. subst b.
    destruct c as [[] [] [] [] [] [] [] []]; try reflexivity; discriminate Hb.
Qed.

(** A byte that starts neither of the two replaced characters is simply
    lower-cased. *)
Lemma lower_glue_plain (c : ascii) (t : string) :
  Ascii.eqb c "196" = false -> Ascii.eqb c "226" = false ->
  lower_glue c t = String (lower_char c) t.
Proof.
  intros H1 H2. unfold lower_glue. rewrite H1, H2.
  destruct t as [|c1 [|c2 t2]]; reflexivity.
Qed.

Lemma lower_glue_ascii (c : ascii) (t : string) :
  (nat_of_ascii c <? 128) = true -> lower_glue c t = String (lower_char c) t.
Proof.
  intros H. apply lower_glue_plain;
    destruct c as [[] [] [] [] [] [] [] []]; try reflexivity; discriminate H.
Qed.

Lemma lower_glue_idem (c : ascii) (t : string) :
  lower t = t -> lower (lower_glue c t) = lower_glue c t.
Proof.
  intros H. unfold lower_glue.
  destruct t as [|c1 t1].
  { cbn. rewrite lower_char_idem. reflexivity. }
  destruct (Ascii.eqb c "196" && Ascii.eqb c1 "176") eqn:E1.
  { apply andb_true_iff in E1 as [_ E1]. apply Ascii.eqb_eq in E1. subst c1.
    cbn [lower] in H. rewrite lower_glue_plain in H by reflexivity.
    injection H as H. cbn [lower]. rewrite H.
    rewrite !lower_glue_plain by reflexivity. reflexivity. }
  assert (Ascii.eqb (lower_char c) "196" && Ascii.eqb c1 "176" = false) as E1'.
  { rewrite lower_char_eqb by reflexivity. exact E1. }
  destruct t1 as [|c2 t2].
  { cbn [lower] in *. rewrite H. unfold lower_glue at 1. rewrite E1'.
    rewrite lower_char_idem. reflexivity. }
  destruct (Ascii.eqb c "226" && Ascii.eqb c1 "132" && Ascii.eqb c2 "170") eqn:E2.
  { apply andb_true_iff in E2 as [E2 E3]. apply andb_true_iff in E2 as [_ E2].
    apply Ascii.eqb_eq in E2, E3. subst c1 c2.
    cbn [lower] in H. rewrite !lower_glue_plain in H by reflexivity.
    injection H as H. cbn [lower]. rewrite H.
    rewrite lower_glue_plain by reflexivity. reflexivity. }
  change (lower (String (lower_char c) (String c1 (String c2 t2))))
    with (lower_glue (lower_char c) (lower (String c1 (String c2 t2)))).
  rewrite H. unfold lower_glue. rewrite E1'.
  rewrite (lower_char_eqb c "226") by reflexivity. rewrite E2.
  rewrite lower_char_idem. reflexivity.
Qed.

Lemma lower_idem (s : string) : lower (lower s) = lower s.
Proof.
  induction s as [|c s IH]; [reflexivity|].
  cbn [lower]. apply lower_glue_idem, IH.
Qed.

Lemma lower_glue_truthy (c : ascii) (t : string) :
  truthy (lower_glue c t) = true.
Proof.
  unfold lower_glue. destruct t as [|c1 [|c2 t2]];
    repeat match goal with |- context [if ?b then _ else _] => destruct b end;
    reflexivity.
Qed.

Lemma truthy_lower (s : string) : truthy (lower s) = truthy s.
Proof. destruct s; [reflexivity | apply lower_glue_truthy]. Qed.

Lemma prefix_app (sub rest : string) : String.prefix sub (sub +:+ rest) = true.
Proof.
  induction sub as [|c sub IH]; simpl.
  - destruct rest; reflexivity.
  - destruct (ascii_dec c c) as [_|N]; [exact IH | contradiction].
Qed.

Lemma contains_middle (sub before after : string) :
  contains sub (before +:+ sub +:+ after) = true.
Proof.
  apply contains_app_r.
  pose proof (prefix_app sub after) as H.
  destruct (sub +:+ after); cbn [contains]; rewrite H; reflexivity.
Qed.

Lemma truthy_middle (before kw after : string) :
  kw <> "" -> truthy (before +:+ kw +:+ after) = true.
Proof.
  intros H. destruct before; [|reflexivity].
  destruct kw; [congruence | reflexivity].
Qed.

(** Lower-casing goes through an ASCII word and what follows it. *)
Lemma lower_app_ascii (kw after : string) :
  ascii_only kw = true -> lower (kw +:+ after) = lower kw +:+ lower after.
Proof.
  induction kw as [|c kw IH]; intros H; [reflexivity|].
  cbn [ascii_only] in H. apply andb_true_iff in H as [Hc H].
  rewrite ?append_String, ?append_empty; cbn [lower]. rewrite IH by exact H.
  rewrite !lower_glue_ascii by exact Hc. reflexivity.
Qed.

(** A text lower-cased to ASCII letters other than [k] was ASCII. *)
Lemma lower_ascii_inv (kw : string) :
  ascii_only (lower kw) = true -> contains "k" (lower kw) = false ->
  ascii_only kw = true.
Proof.
  induction kw as [|c kw IH]; [reflexivity|].
  cbn [lower]. generalize dependent (lower kw). intros t IH.
  unfold lower_glue.
  destruct t as [|c1 t1].
  { cbn. rewrite andb_true_r. intros H _. rewrite IH by reflexivity.
    rewrite andb_true_r.
    destruct c as [[] [] [] [] [] [] [] []]; try reflexivity; discriminate H. }
  destruct (Ascii.eqb c "196" && Ascii.eqb c1 "176"); [discriminate|].
  assert (ascii_only (String (lower_char c) (String c1 t1)) = true ->
          contains "k" (String (lower_char c) (String c1 t1)) = false ->
          ascii_only (String c kw) = true) as Hplain.
  { intros H Hk. cbn [ascii_only] in H. apply andb_true_iff in H as [Hc H].
    cbn [contains] in Hk. apply orb_false_iff in Hk as [_ Hk].
    cbn [ascii_only]. rewrite (IH H Hk), andb_true_r.
    destruct c as [[] [] [] [] [] [] [] []]; try reflexivity; discriminate Hc. }
  destruct t1 as [|c2 t2]; [exact Hplain|].
  destruct (Ascii.eqb c "226" && Ascii.eqb c1 "132" && Ascii.eqb c2 "170");
    [|exact Hplain].
  intros _ Hk. cbn in Hk. destruct t2; discriminate Hk.
Qed.

(** In front of a text that starts with an ASCII byte, lower-casing stays
    in front. *)
Lemma lower_glue_suffix (c : ascii) (p u : string) :
  match u with
  | String c1 _ => (nat_of_ascii c1 <? 128) = true
  | EmptyString => True
  end ->
  exists p', lower_glue c (p +:+ u) = p' +:+ u.
Proof.
  intros Hu. unfold lower_glue.
  destruct p as [|d [|d2 p2]]; rewrite ?append_String, ?append_empty.
  - destruct u as [|c1 u1]; [exists (String (lower_char c) ""); reflexivity|].
    assert (Ascii.eqb c1 "176" = false /\ Ascii.eqb c1 "132" = false) as [E1 E2].
    { destruct c1 as [[] [] [] [] [] [] [] []]; split; try reflexivity;
        discriminate Hu. }
    rewrite E1, E2, !andb_false_r.
    exists (String (lower_char c) ""). destruct u1; reflexivity.
  - destruct (Ascii.eqb c "196" && Ascii.eqb d "176").
    { exists (String "i" (String "204" (String "135" ""))). reflexivity. }
    destruct u as [|c2 u2]; [exists (String (lower_char c) (String d "")); reflexivity|].
    assert (Ascii.eqb c2 "170" = false) as E.
    { destruct c2 as [[] [] [] [] [] [] [] []]; try reflexivity; discriminate Hu. }
    rewrite E, andb_false_r.
    exists (String (lower_char c) (String d "")). reflexivity.
  - destruct (Ascii.eqb c "196" && Ascii.eqb d "176").
    { exists (String "i" (String "204" (String "135" (String d2 p2)))).
      reflexivity. }
    destruct (Ascii.eqb c "226" && Ascii.eqb d "132" && Ascii.eqb d2 "170").
    { exists (String "k" p2). reflexivity. }
    exists (String (lower_char c) (String d (String d2 p2))). reflexivity.
Qed.

Lemma lower_suffix (before t : string) :
  match lower t with
  | String c1 _ => (nat_of_ascii c1 <? 128) = true
  | EmptyString => True
  end ->
  exists p, lower (before +:+ t) = p +:+ lower t.
Proof.
  intros Ht. induction before as [|c before [p IH]].
  - exists "". reflexivity.
  - rewrite ?append_String, ?append_empty; cbn [lower]. rewrite IH.
    apply lower_glue_suffix, Ht.
Qed.

(** An ASCII word keeps its place under lower-casing of the text around it. *)
Lemma contains_lower_middle (before kw after : string) :
  ascii_only kw = true -> kw <> "" ->
  contains (lower kw) (lower (before +:+ kw +:+ after)) = true.
Proof.
  intros Ha Hne.
  assert (lower (kw +:+ after) = lower kw +:+ lower after) as E
    by (apply lower_app_ascii, Ha).
  destruct (lower_suffix before (kw +:+ after)) as [p Hp].
  { rewrite E. destruct kw as [|c kw]; [congruence|].
    cbn [ascii_only] in Ha. apply andb_true_iff in Ha as [Hc _].
    cbn [lower]. rewrite lower_glue_ascii by exact Hc. cbn.
    destruct c as [[] [] [] [] [] [] [] []]; try reflexivity; discriminate Hc. }
  rewrite Hp, E. apply contains_middle.
Qed.

End Lookup.

(** X15. The lookup writes nothing exactly for the empty query; for every
    other query it writes one of its six fixed texts. *)
Theorem quick_answer_range (query : string) :
  (quick_answer query = None <-> query = "") /\
  (query <> "" ->
   exists a, In a Spec.answers /\ quick_answer query = Some a).
Proof.
  assert (query <> "" ->
          exists a, In a Spec.answers /\ quick_answer query = Some a) as H.
  { intros Hne. unfold quick_answer.
    destruct query as [|c query]; [congruence|]. cbn [PyStr.truthy].
    generalize (PyStr.lower (String c query)) as q. intros q.
    repeat match goal with
    | |- context [PyStr.contains ?k q] => destruct (PyStr.contains k q)
    end; cbn [orb]; eexists; (split; [|reflexivity]); cbn; auto 10. }
  split; [|exact H]. split.
  - intros Hn. destruct query as [|c query]; [reflexivity|].
    destruct H as (a & _ & E); [discriminate|]. congruence.
  - intros ->. reflexivity.
Qed.

Lemma quick_answer_range_witness :
  "smd?" <> "" /\ exists a, In a Spec.answers /\ quick_answer "smd?" = Some a.
Proof.
  assert ("smd?" <> "") as H by discriminate.
  split; [exact H|].
  exact (proj2 (quick_answer_range "smd?") H).
Defined.

(** X16. The answer does not depend on the letter case of the query: a
    query and its lower-cased form get the same answer. *)
Theorem quick_answer_case_insensitive (query : string) :
  quick_answer (PyStr.lower query) = quick_answer query.
Proof.
  unfold quick_answer. rewrite truthy_lower, lower_idem. reflexivity.
Qed.

(** X17. A query with [trafficability] anywhere in it, in any letter case,
    gets the trafficability text whatever else it mentions; one with
    [compaction] gets the compaction text unless [trafficability] occurs
    too. *)
Theorem quick_answer_keyword_anywhere (before kw after : string) :
  (PyStr.lower kw = "trafficability" ->
   quick_answer (before +:+ kw +:+ after) = Some trafficability_answer) /\
  (PyStr.lower kw = "compaction" ->
   PyStr.contains "trafficability" (PyStr.lower (before +:+ kw +:+ after)) = false ->
   quick_answer (before +:+ kw +:+ after) = Some compaction_answer).
Proof.
  split.
  - intros H. unfold quick_answer.
    rewrite truthy_middle by (intros ->; discriminate H).
    pose proof (contains_lower_middle before kw after) as Hc.
    rewrite H in Hc. rewrite Hc; [reflexivity | | intros ->; discriminate H].
    apply lower_ascii_inv; rewrite H; reflexivity.
  - intros H Hno. unfold quick_answer.
    rewrite truthy_middle by (intros ->; discriminate H).
    pose proof (contains_lower_middle before kw after) as Hc.
    rewrite H in Hc. rewrite Hno, Hc; [reflexivity | | intros ->; discriminate H].
    apply lower_ascii_inv; rewrite H; reflexivity.
Qed.

Lemma quick_answer_keyword_anywhere_witness :
  PyStr.lower "Trafficability" = "trafficability" /\
  quick_answer ("Is BD or CI part of " +:+ "Trafficability" +:+ " and compaction?")
  = Some trafficability_answer.
Proof.
  split; [reflexivity|].
  exact (proj1 (quick_answer_keyword_anywhere "Is BD or CI part of "
                  "Trafficability" " and compaction?") eq_refl).
Defined.

(** ** The tire and load level, both ways *)

(** X18. The level is [High] exactly when the wheel load is present and at
    least [5000], [Moderate] exactly when that is not so and the tire
    pressure is present and above [50], and [Low] exactly when neither
    holds: the search for the mark in the reason texts never misjudges. *)
Theorem interpret_tire_and_load_iff (tp wl : option float) :
  (fst (interpret_tire_and_load tp wl) = "High"
   <-> Spec.load_triggers wl = true) /\
  (fst (interpret_tire_and_load tp wl) = "Moderate"
   <-> Spec.tire_triggers tp = true /\ Spec.load_triggers wl = false) /\
  (fst (interpret_tire_and_load tp wl) = "Low"
   <-> Spec.tire_triggers tp = false /\ Spec.load_triggers wl = false).
Proof.
  rewrite interpret_tire_and_load_cases.
  destruct (Spec.tire_triggers tp), (Spec.load_triggers wl); cbn [fst];
    repeat split; intros; try discriminate; try reflexivity;
    match goal with H : _ /\ _ |- _ => destruct H; discriminate end.
Qed.
